(** * Verified hyperbolicity: the logarithmic gluing verifier of SnapPy

    Shallow embedding of [python/verify/verifyHyperbolicity.py]:
    [verify_logarithmic_gluing_equations_and_positively_oriented_tets] and
    [verify_hyperbolicity].

    The Python code runs on top of an interval-arithmetic library (the
    complex interval field of the host computer-algebra system) and of the
    manifold object.  Neither is part of the file: the interval field is
    taken as an interface ([IntervalField]), the manifold as a record of
    the four queries the code makes.  Python's effects are kept explicit:
    a call either returns a value or raises, and the lines printed under
    [verbose] are collected in order. *)

From Stdlib Require Import ZArith List Bool String Lia QArith DecimalString.
From Stdlib Require Import Lqa.
Import ListNotations.

Close Scope Q_scope.
Close Scope Z_scope.
Open Scope string_scope.
Open Scope list_scope.
Open Scope nat_scope.

Set Implicit Arguments.

(** ** Python calls: printed lines and exceptions *)

Inductive exn : Type :=
| IndexError      (* a list indexed out of range *)
| ValueError      (* raised by the interval library, e.g. by [log] *)
| RuntimeError.   (* any other failure of a collaborator *)

Inductive result (A : Type) : Type :=
| Returned (a : A)
| Raised (e : exn).

Arguments Raised {A} e.

(** A computation: the lines it printed, then how it ended. *)
Definition Py (A : Type) : Type := (list string * result A)%type.

Definition ret {A} (a : A) : Py A := ([], Returned a).
Definition raise {A} (e : exn) : Py A := ([], Raised e).
Definition print (line : string) : Py unit := ([line], Returned tt).
Definition lift {A} (r : result A) : Py A := ([], r).

Definition bind {A B} (m : Py A) (k : A -> Py B) : Py B :=
  match m with
  | (out, Returned a) => let (out', r) := k a in (out ++ out', r)
  | (out, Raised e) => (out, Raised e)
  end.

Declare Scope py_scope.
Delimit Scope py_scope with py.
Notation "x <- c ;; k" := (bind c (fun x => k))
  (at level 61, c at next level, right associativity) : py_scope.
Notation "c ;;; k" := (bind c (fun _ => k))
  (at level 61, right associativity) : py_scope.
Open Scope py_scope.

(** [if verbose: print(line)] *)
Definition print_if (verbose : bool) (line : string) : Py unit :=
  if verbose then print line else ret tt.

(** The printed lines and the outcome of a computation. *)
Definition output {A} (m : Py A) : list string := fst m.
Definition outcome {A} (m : Py A) : result A := snd m.

(** [xs[i]]: indexing a list by a non-negative index. *)
Definition getitem {A} (xs : list A) (i : nat) : Py A :=
  match nth_error xs i with
  | Some x => ret x
  | None => raise IndexError
  end.

(** ["%d" % n] for a non-negative [n]. *)
Definition fmt_d (n : nat) : string := NilZero.string_of_uint (Nat.to_uint n).

(** How the body of a [for] loop inside a function ends: the loop goes on
    (with the loop-carried state), or the function returns. *)
Inductive flow (S : Type) : Type :=
| Continue (s : S)
| ReturnValue (b : bool).

Arguments ReturnValue {S} b.

(** ** The interval library

    One complex interval field [BaseField] (a fixed precision), its
    elements [CI] and the real intervals [RI] of their parts.  Arithmetic
    between a Python [int] and an interval coerces the [int] with
    [of_int].  Only [log] is taken to be able to raise. *)

Record IntervalField : Type := {
  CI : Type;
  RI : Type;
  of_int : Z -> CI;                 (* coercion of a Python int *)
  of_2j : CI;                       (* BaseField(2j) *)
  pi : CI;                          (* BaseField.pi() *)
  add : CI -> CI -> CI;
  sub : CI -> CI -> CI;
  mul : CI -> CI -> CI;
  div : CI -> CI -> CI;
  log : CI -> result CI;            (* z.log() *)
  imag : CI -> RI;                  (* z.imag() *)
  cabs : CI -> RI;                  (* abs(z) *)
  gt_int : RI -> Z -> bool;         (* x > n, n a Python int *)
  lt_float : RI -> Q -> bool        (* x < f, f a Python float *)
}.

(** The Python float literal [0.1]: the double nearest to one tenth. *)
Definition float_0_1 : Q := (3602879701896397 # 36028797018963968)%Q.

(** ** The manifold

    The four queries the verifier makes; [cusp_info i] stands for
    [manifold.cusp_info(i)], [complete] for its entry ['complete?']. *)

Record CuspInfo : Type := { complete : bool }.

Record Manifold : Type := {
  num_tetrahedra : nat;
  num_cusps : nat;
  cusp_info : nat -> CuspInfo;
  gluing_equations : list (list Z)
}.

(** ** verify_logarithmic_gluing_equations_and_positively_oriented_tets *)

Section Verifier.

Variable F : IntervalField.

Local Abbreviation CI := (CI F).

(** [shape.imag() > 0] *)
Definition positive_imag (shape : CI) : bool := gt_int F (imag F shape) 0%Z.

(** Lines 37-41: the loop over the shapes. *)
Fixpoint orientation_loop (verbose : bool) (shape_intervals : list CI)
  : Py (flow unit) :=
  match shape_intervals with
  | [] => ret (Continue tt)
  | shape :: rest =>
      if negb (positive_imag shape) then
        print_if verbose "Shape with non-positive imaginary part" ;;;
        ret (ReturnValue false)
      else orientation_loop verbose rest
  end.

(** [[ f(z).log() for z in shape_intervals ]] *)
Fixpoint log_each (f : CI -> CI) (shape_intervals : list CI)
  : result (list CI) :=
  match shape_intervals with
  | [] => Returned []
  | z :: rest =>
      match log F (f z) with
      | Raised e => Raised e
      | Returned l =>
          match log_each f rest with
          | Raised e => Raised e
          | Returned ls => Returned (l :: ls)
          end
      end
  end.

Definition shape_z (z : CI) : CI := z.
(** [1 / (1 - z)] *)
Definition shape_zp (z : CI) : CI :=
  div F (of_int F 1%Z) (sub F (of_int F 1%Z) z).
(** [(z - 1) / z] *)
Definition shape_zpp (z : CI) : CI :=
  div F (sub F z (of_int F 1%Z)) z.

(** [zip(logZ, logZp, logZpp)] *)
Fixpoint zip3 (a b c : list CI) : list (CI * CI * CI) :=
  match a, b, c with
  | x :: a', y :: b', z :: c' => (x, y, z) :: zip3 a' b' c'
  | _, _, _ => []
  end.

(** Line 50: [[ z for triple in zip(logZ, logZp, logZpp) for z in triple ]] *)
Definition interleave (logZ logZp logZpp : list CI) : list CI :=
  flat_map (fun triple : CI * CI * CI =>
              let '(l, lp, lpp) := triple in [l; lp; lpp])
           (zip3 logZ logZp logZpp).

(** Lines 44-50. *)
Definition compute_logs (shape_intervals : list CI) : result (list CI) :=
  match log_each shape_z shape_intervals with
  | Raised e => Raised e
  | Returned logZ =>
      match log_each shape_zp shape_intervals with
      | Raised e => Raised e
      | Returned logZp =>
          match log_each shape_zpp shape_intervals with
          | Raised e => Raised e
          | Returned logZpp => Returned (interleave logZ logZp logZpp)
          end
      end
  end.

(** Python's [sum]: a left fold that starts from the int [0]. *)
Definition py_sum (xs : list CI) : CI := fold_left (add F) xs (of_int F 0%Z).

(** Lines 62-64, one equation:
    [sum([l * expo for l, expo in zip(equation, logs)])] *)
Definition LHS_of (logs : list CI) (equation : list Z) : CI :=
  py_sum (map (fun p : Z * CI => mul F (of_int F (fst p)) (snd p))
              (combine equation logs)).

(** Line 69: [BaseField.pi() * BaseField(2j)] *)
Definition TWO_PI_I : CI := mul F (pi F) (of_2j F).

(** Lines 77 and 97: [abs(lhs - value) < 0.1] *)
Definition within_tolerance (lhs value : CI) : bool :=
  lt_float F (cabs F (sub F lhs value)) float_0_1.

(** Lines 75-81: [for edge_index in range(n_tet)], with [todo] the
    number of iterations left. *)
Fixpoint edge_loop (verbose : bool) (LHSs : list CI)
         (todo edge_index LHS_index : nat) : Py (flow nat) :=
  match todo with
  | O => ret (Continue LHS_index)
  | S todo' =>
      lhs <- getitem LHSs LHS_index ;;
      if negb (within_tolerance lhs TWO_PI_I) then
        print_if verbose ("Edge equation " ++ fmt_d edge_index ++ " failed") ;;;
        ret (ReturnValue false)
      else edge_loop verbose LHSs todo' (S edge_index) (S LHS_index)
  end.

(** Lines 91-93: [(2, 0) if complete else (1, TWO_PI_I)] *)
Definition cusp_equations (info : CuspInfo) : nat * CI :=
  if complete info then (2, of_int F 0%Z) else (1, TWO_PI_I).

(** Lines 96-102: [for j in range(num_LHSs)]. *)
Fixpoint cusp_equation_loop (verbose : bool) (LHSs : list CI) (value : CI)
         (cusp_index todo j LHS_index : nat) : Py (flow nat) :=
  match todo with
  | O => ret (Continue LHS_index)
  | S todo' =>
      lhs <- getitem LHSs LHS_index ;;
      if negb (within_tolerance lhs value) then
        print_if verbose ("Equation " ++ fmt_d j ++ " for cusp "
                          ++ fmt_d cusp_index ++ " failed") ;;;
        ret (ReturnValue false)
      else cusp_equation_loop verbose LHSs value cusp_index todo'
                              (S j) (S LHS_index)
  end.

(** Lines 84-102: [for cusp_index in range(n_cusps)]. *)
Fixpoint cusp_loop (verbose : bool) (manifold : Manifold) (LHSs : list CI)
         (todo cusp_index LHS_index : nat) : Py (flow nat) :=
  match todo with
  | O => ret (Continue LHS_index)
  | S todo' =>
      let '(num_LHSs, value) := cusp_equations (cusp_info manifold cusp_index) in
      r <- cusp_equation_loop verbose LHSs value cusp_index num_LHSs 0 LHS_index ;;
      match r with
      | ReturnValue b => ret (ReturnValue b)
      | Continue LHS_index' =>
          cusp_loop verbose manifold LHSs todo' (S cusp_index) LHS_index'
      end
  end.

Definition verify_logarithmic_gluing_equations_and_positively_oriented_tets
           (manifold : Manifold) (shape_intervals : list CI)
           (verbose : bool) : Py bool :=
  o <- orientation_loop verbose shape_intervals ;;
  match o with
  | ReturnValue b => ret b
  | Continue _ =>
      logs <- lift (compute_logs shape_intervals) ;;
      let n_tet := num_tetrahedra manifold in
      let n_cusps := num_cusps manifold in
      let equations := gluing_equations manifold in
      let LHSs := map (LHS_of logs) equations in
      (* BaseField = shape_intervals[0].parent() *)
      _ <- getitem shape_intervals 0 ;;
      e <- edge_loop verbose LHSs n_tet 0 0 ;;
      match e with
      | ReturnValue b => ret b
      | Continue LHS_index =>
          c <- cusp_loop verbose manifold LHSs n_cusps 0 LHS_index ;;
          match c with
          | ReturnValue b => ret b
          | Continue _ => ret true
          end
      end
  end.

End Verifier.

(** ** verify_hyperbolicity

    [manifold.tetrahedra_shapes('rect', bits_prec = bits_prec,
    intervals = True)] is the certified solver of the rectangular
    equations; it is outside this file and taken as a parameter.  Its
    intervals live in the field of precision [bits_prec]. *)

Section Hyperbolicity.

Variable ComplexIntervalField : nat -> IntervalField.
Variable tetrahedra_shapes :
  forall bits_prec : nat,
    Manifold -> result (list (CI (ComplexIntervalField bits_prec))).

Definition verify_hyperbolicity (manifold : Manifold) (verbose : bool)
           (bits_prec : nat)
  : Py (bool * list (CI (ComplexIntervalField bits_prec))) :=
  match tetrahedra_shapes bits_prec manifold with
  | Raised _ =>
      print_if verbose
        "Could not certify solution to rectangular gluing equations" ;;;
      ret (false, [])
  | Returned shape_intervals =>
      ok <- verify_logarithmic_gluing_equations_and_positively_oriented_tets
              (ComplexIntervalField bits_prec) manifold shape_intervals
              verbose ;;
      if negb ok then ret (false, [])
      else ret (true, shape_intervals)
  end.

End Hyperbolicity.

(** ** The specification's reading of the verifier

    Definitions that follow the wording of the specification, against
    which the code above is compared, and the predicates in which the
    statements below are written. *)

Section Specification.

Variable F : IntervalField.

Local Abbreviation CI := (CI F).

(** One target [2 pi i] per edge equation. *)
Definition edge_targets (manifold : Manifold) : list CI :=
  repeat (TWO_PI_I F) (num_tetrahedra manifold).

(** A complete cusp: two equations, each expected to be [0]; a filled
    cusp: one equation, expected to be [2 pi i]. *)
Definition cusp_targets (info : CuspInfo) : list CI :=
  if complete info then [of_int F 0%Z; of_int F 0%Z] else [TWO_PI_I F].

Definition all_cusp_targets (manifold : Manifold) : list CI :=
  flat_map (fun i => cusp_targets (cusp_info manifold i))
           (seq 0 (num_cusps manifold)).

(** The targets in the order of the equation list: edges, then cusps. *)
Definition expected_targets (manifold : Manifold) : list CI :=
  edge_targets manifold ++ all_cusp_targets manifold.

(** The number of equations the manifold should supply. *)
Definition expected_equation_count (manifold : Manifold) : nat :=
  num_tetrahedra manifold +
  list_sum (map (fun i => if complete (cusp_info manifold i) then 2 else 1)
                (seq 0 (num_cusps manifold))).

(** Each target in turn is checked against the next unconsumed
    left-hand side; the first failure is final. *)
Fixpoint check_all (targets LHSs : list CI) : result bool :=
  match targets with
  | [] => Returned true
  | value :: targets' =>
      match LHSs with
      | [] => Raised IndexError
      | lhs :: LHSs' =>
          if within_tolerance F lhs value then check_all targets' LHSs'
          else Returned false
      end
  end.

(** What a loop hands on that checks [targets] against the left-hand
    sides from cursor [i] onwards: the advanced cursor, or the return. *)
Definition after_checks (targets LHSs : list CI) (i : nat)
  : result (flow nat) :=
  match check_all targets (skipn i LHSs) with
  | Returned true => Returned (Continue (i + List.length targets))
  | Returned false => Returned (ReturnValue false)
  | Raised e => Raised e
  end.

(** The logarithm sequence
    [log z0, log z0', log z0'', log z1, log z1', log z1'', ...], with
    [z' = 1 / (1 - z)] and [z'' = (z - 1) / z]. *)
Inductive interleaved_logs : list CI -> list CI -> Prop :=
| logs_nil : interleaved_logs [] []
| logs_cons : forall z shapes l lp lpp logs,
    log F z = Returned l ->
    log F (div F (of_int F 1%Z) (sub F (of_int F 1%Z) z)) = Returned lp ->
    log F (div F (sub F z (of_int F 1%Z)) z) = Returned lpp ->
    interleaved_logs shapes logs ->
    interleaved_logs (z :: shapes) (l :: lp :: lpp :: logs).

(** The dot product of the first [n] coefficients with the first [n]
    logarithms, summed from the left starting from [0]. *)
Fixpoint dot_product (equation : list Z) (logs : list CI) (n : nat) : CI :=
  match n with
  | O => of_int F 0%Z
  | S n' =>
      add F (dot_product equation logs n')
            (mul F (of_int F (nth n' equation 0%Z))
                   (nth n' logs (of_int F 0%Z)))
  end.

(** The value of a run as the specification describes it, without the
    printing and the cursors: orientation, then logarithms, then (past the
    base-field lookup) the checks in order. *)
Definition verify_spec (manifold : Manifold) (shape_intervals : list CI)
  : result bool :=
  if negb (forallb (positive_imag F) shape_intervals) then Returned false
  else
    match compute_logs F shape_intervals with
    | Raised e => Raised e
    | Returned logs =>
        match shape_intervals with
        | [] => Raised IndexError
        | _ :: _ =>
            check_all (expected_targets manifold)
                      (map (LHS_of F logs) (gluing_equations manifold))
        end
    end.

(** Check number [i] is made and passes, respectively is made and
    fails: target [i] exists, left-hand side [i] exists, and the
    tolerance test on them gives [true], respectively [false]. *)
Definition check_passes (targets LHSs : list CI) (i : nat) : Prop :=
  match nth_error targets i, nth_error LHSs i with
  | Some value, Some lhs => within_tolerance F lhs value = true
  | _, _ => False
  end.

Definition check_fails (targets LHSs : list CI) (i : nat) : Prop :=
  match nth_error targets i, nth_error LHSs i with
  | Some value, Some lhs => within_tolerance F lhs value = false
  | _, _ => False
  end.

(** Every shape interval lies strictly above the real axis. *)
Definition positively_oriented (shape_intervals : list CI) : Prop :=
  Forall (fun z => positive_imag F z = true) shape_intervals.

(** The lines printed when the function returns at a failed check. *)
Definition said (verbose : bool) (line : string) : list string :=
  if verbose then [line] else [].

End Specification.

(** The manifold with another equation list. *)
Definition with_equations (manifold : Manifold) (equations : list (list Z))
  : Manifold :=
  {| num_tetrahedra := num_tetrahedra manifold;
     num_cusps := num_cusps manifold;
     cusp_info := cusp_info manifold;
     gluing_equations := equations |}.

(** ** The diagnostics, check by check

    The checks of the two loops with the line each one prints when it
    fails, and the run of the verifier written as one pass over them. *)

Section Diagnostics.

Variable F : IntervalField.

Local Abbreviation CI := (CI F).

(** Line 79 and line 99. *)
Definition edge_line (edge_index : nat) : string :=
  "Edge equation " ++ fmt_d edge_index ++ " failed".
Definition cusp_line (j cusp_index : nat) : string :=
  "Equation " ++ fmt_d j ++ " for cusp " ++ fmt_d cusp_index ++ " failed".

(** The edge checks from edge [edge_index] on, and the checks of cusp
    [cusp_index] from its equation [j] on: target and line. *)
Definition edge_labels_from (edge_index todo : nat) : list (CI * string) :=
  map (fun k => (TWO_PI_I F, edge_line k)) (seq edge_index todo).
Definition cusp_labels_from (value : CI) (cusp_index j todo : nat)
  : list (CI * string) :=
  map (fun j' => (value, cusp_line j' cusp_index)) (seq j todo).

Definition cusp_labels (manifold : Manifold) (cusp_index : nat)
  : list (CI * string) :=
  cusp_labels_from (snd (cusp_equations F (cusp_info manifold cusp_index)))
                   cusp_index 0
                   (fst (cusp_equations F (cusp_info manifold cusp_index))).

Definition labelled_targets (manifold : Manifold) : list (CI * string) :=
  edge_labels_from 0 (num_tetrahedra manifold) ++
  flat_map (cusp_labels manifold) (seq 0 (num_cusps manifold)).

(** One pass: the first check out of tolerance prints its line (when
    verbose) and gives [False]. *)
Fixpoint check_labelled (verbose : bool) (labels : list (CI * string))
         (LHSs : list CI) : Py bool :=
  match labels with
  | [] => ret true
  | (value, line) :: labels' =>
      match LHSs with
      | [] => raise IndexError
      | lhs :: LHSs' =>
          if within_tolerance F lhs value
          then check_labelled verbose labels' LHSs'
          else (said verbose line, Returned false)
      end
  end.

(** What a loop hands on after such a pass: the cursor [i], or the
    return. *)
Definition hand_on (i : nat) (r : Py bool) : Py (flow nat) :=
  match r with
  | (out, Returned true) => (out, Returned (Continue i))
  | (out, Returned false) => (out, Returned (ReturnValue false))
  | (out, Raised e) => (out, Raised e)
  end.

(** The whole run. *)
Definition verify_run (manifold : Manifold) (shape_intervals : list CI)
           (verbose : bool) : Py bool :=
  if negb (forallb (positive_imag F) shape_intervals) then
    (said verbose "Shape with non-positive imaginary part", Returned false)
  else
    match compute_logs F shape_intervals with
    | Raised e => raise e
    | Returned logs =>
        match shape_intervals with
        | [] => raise IndexError
        | _ :: _ =>
            check_labelled verbose (labelled_targets manifold)
                           (map (LHS_of F logs) (gluing_equations manifold))
        end
    end.

(** The number of equations of the cusps before cusp [cusp_index]. *)
Definition cusp_offset (manifold : Manifold) (cusp_index : nat) : nat :=
  list_sum (map (fun i => if complete (cusp_info manifold i) then 2 else 1)
                (seq 0 cusp_index)).

(** One of the three logarithms of a shape raises [e]. *)
Definition log_raises (e : exn) (z : CI) : Prop :=
  log F z = Raised e \/ log F (shape_zp F z) = Raised e \/
  log F (shape_zpp F z) = Raised e.

End Diagnostics.

(** The value is [False]. *)
Definition is_false (r : result bool) : bool :=
  match r with Returned false => true | _ => false end.

(** The manifold with one more cusp, and that cusp's equations after
    the others. *)
Definition add_cusp (manifold : Manifold) (info : CuspInfo)
           (equations : list (list Z)) : Manifold :=
  {| num_tetrahedra := num_tetrahedra manifold;
     num_cusps := S (num_cusps manifold);
     cusp_info := fun i => if Nat.eqb i (num_cusps manifold) then info
                           else cusp_info manifold i;
     gluing_equations := gluing_equations manifold ++ equations |}.

(** ** A reference interval field

    An implementation of [IntervalField] on which the verifier can be run:
    boxes in the complex plane whose sides are closed intervals with
    fixed-point end points, multiples of [2^-bits_prec].  An end point is
    stored as the integer number of such units.  Every operation rounds
    outwards; logarithms and arguments come from truncated series with an
    explicit remainder.  A quotient by an interval that contains zero is
    [NaN], which compares false with everything. *)

Module Reference.

Local Open Scope Z_scope.

Inductive rint : Type :=
| Ival (lo hi : Z)
| NaN.

Definition cint : Type := (rint * rint)%type.

(** Division rounded up. *)
Definition cdiv (a b : Z) : Z := - ((- a) / b).

Definition min4 (a b c d : Z) : Z := Z.min (Z.min a b) (Z.min c d).
Definition max4 (a b c d : Z) : Z := Z.max (Z.max a b) (Z.max c d).

Definition radd (x y : rint) : rint :=
  match x, y with
  | Ival a b, Ival c d => Ival (a + c) (b + d)
  | _, _ => NaN
  end.

Definition rsub (x y : rint) : rint :=
  match x, y with
  | Ival a b, Ival c d => Ival (a - d) (b - c)
  | _, _ => NaN
  end.

Definition rneg (x : rint) : rint :=
  match x with Ival a b => Ival (- b) (- a) | NaN => NaN end.

(** The largest absolute value in an interval. *)
Definition rmag (x : rint) : rint :=
  match x with
  | Ival a b => let m := Z.max (Z.abs a) (Z.abs b) in Ival m m
  | NaN => NaN
  end.

(** Division by a positive integer. *)
Definition rdiv_int (x : rint) (n : Z) : rint :=
  match x with Ival a b => Ival (a / n) (cdiv b n) | NaN => NaN end.

Definition is_pos (x : rint) : bool :=
  match x with Ival a _ => 0 <? a | NaN => false end.
Definition is_neg (x : rint) : bool :=
  match x with Ival _ b => b <? 0 | NaN => false end.

Section Precision.

Variable bits_prec : nat.

(** The number of units in one. *)
Definition one : Z := Z.pow 2 (Z.of_nat bits_prec).

Definition rof_int (n : Z) : rint := Ival (n * one) (n * one).

(** The rational [q], and the rationals from [q1] to [q2]. *)
Definition rof_Q (q : Q) : rint :=
  Ival (Qnum q * one / Zpos (Qden q)) (cdiv (Qnum q * one) (Zpos (Qden q))).
Definition rof_QQ (q1 q2 : Q) : rint :=
  Ival (Qnum q1 * one / Zpos (Qden q1))
       (cdiv (Qnum q2 * one) (Zpos (Qden q2))).

Definition rmul (x y : rint) : rint :=
  match x, y with
  | Ival a b, Ival c d =>
      Ival (min4 (a * c / one) (a * d / one) (b * c / one) (b * d / one))
           (max4 (cdiv (a * c) one) (cdiv (a * d) one)
                 (cdiv (b * c) one) (cdiv (b * d) one))
  | _, _ => NaN
  end.

Definition rinv (x : rint) : rint :=
  match x with
  | Ival a b =>
      if (0 <? a) || (b <? 0)
      then Ival (one * one / b) (cdiv (one * one) a)
      else NaN
  | NaN => NaN
  end.

Definition rdiv (x y : rint) : rint := rmul x (rinv y).

Definition rsqr (x : rint) : rint :=
  match x with
  | Ival a b =>
      if 0 <=? a then Ival (a * a / one) (cdiv (b * b) one)
      else if b <=? 0 then Ival (b * b / one) (cdiv (a * a) one)
      else Ival 0 (Z.max (cdiv (a * a) one) (cdiv (b * b) one))
  | NaN => NaN
  end.

Definition rsqrt (x : rint) : rint :=
  match x with
  | Ival a b =>
      if 0 <=? a then Ival (Z.sqrt (a * one)) (Z.sqrt (b * one) + 1)
      else NaN
  | NaN => NaN
  end.

Definition half (x : rint) : rint := rdiv_int x 2.

(** [sum_{k < n} sgn^k u^(2k+1) / (2k+1)] in interval arithmetic, and
    the power [u^(2n+1)] it stops at; [pow] is the current power
    [u^(2k+1)], [neg] tells whether the current term is subtracted,
    [alt] whether the signs alternate. *)
Fixpoint odd_series (n : nat) (k : Z) (alt neg : bool)
         (pow u2 acc : rint) : rint * rint :=
  match n with
  | O => (acc, pow)
  | S n' =>
      let term := rdiv_int pow (2 * k + 1) in
      odd_series n' (k + 1) alt (if alt then negb neg else neg)
                 (rmul pow u2) u2
                 (if neg then rsub acc term else radd acc term)
  end.

Definition terms : nat := bits_prec.

(** [atan u] for [|u| <= 1]: the remainder of the alternating series
    is at most the first term left out. *)
Definition atan_small (u : rint) : rint :=
  let (s, _) := odd_series terms 0 true false u (rsqr u) (rof_int 0) in
  let m := rmag u in
  let (_, p) := odd_series terms 0 true false m (rsqr m) (rof_int 0) in
  let r := rdiv_int p (2 * Z.of_nat terms + 1) in
  radd s (Ival (- match r with Ival _ h => h | NaN => 0 end)
               (match r with Ival _ h => h | NaN => 0 end)).

(** Machin: [pi = 16 atan (1/5) - 4 atan (1/239)]. *)
Definition rpi : rint :=
  rsub (rmul (rof_int 16) (atan_small (rof_Q (1 # 5))))
       (rmul (rof_int 4) (atan_small (rof_Q (1 # 239)))).

(** [atan t] for one fixed-point number [0 <= t]. *)
Definition atan_pos (t : Z) : rint :=
  let x := Ival t t in
  if 2 * t <=? one then atan_small x
  else if t <=? 2 * one then
    (* atan t = pi/4 + atan ((t - 1) / (t + 1)) *)
    radd (half (half rpi))
         (atan_small (rdiv (rsub x (rof_int 1)) (radd x (rof_int 1))))
  else
    (* atan t = pi/2 - atan (1/t) *)
    rsub (half rpi) (atan_small (rinv x)).

Definition atan_point (t : Z) : rint :=
  if 0 <=? t then atan_pos t else rneg (atan_pos (- t)).

(** [atan] is increasing. *)
Definition ratan (x : rint) : rint :=
  match x with
  | Ival a b =>
      match atan_point a, atan_point b with
      | Ival l _, Ival _ h => Ival l h
      | _, _ => NaN
      end
  | NaN => NaN
  end.

(** [ln q] for one fixed-point number [0 < q]: [2 atanh u] with
    [u = (q-1)/(q+1)]; the remainder of the series is at most
    [|u|^(2n+1) / ((2n+1) (1 - u^2))]. *)
Definition ln_point (q : Z) : rint :=
  let x := Ival q q in
  let u := rdiv (rsub x (rof_int 1)) (radd x (rof_int 1)) in
  let (s, _) := odd_series terms 0 false false u (rsqr u) (rof_int 0) in
  let m := rmag u in
  let (_, p) := odd_series terms 0 false false m (rsqr m) (rof_int 0) in
  let r := rdiv (rdiv_int p (2 * Z.of_nat terms + 1))
                (rsub (rof_int 1) (rsqr m)) in
  match r with
  | Ival _ h => rmul (rof_int 2) (radd s (Ival (- h) h))
  | NaN => NaN
  end.

(** [ln] is increasing. *)
Definition rln (x : rint) : rint :=
  match x with
  | Ival a b =>
      if 0 <? a then
        match ln_point a, ln_point b with
        | Ival l _, Ival _ h => Ival l h
        | _, _ => NaN
        end
      else NaN
  | NaN => NaN
  end.

Definition box_of_int (n : Z) : cint := (rof_int n, rof_int 0).
Definition box_add (z w : cint) : cint :=
  (radd (fst z) (fst w), radd (snd z) (snd w)).
Definition box_sub (z w : cint) : cint :=
  (rsub (fst z) (fst w), rsub (snd z) (snd w)).
Definition box_mul (z w : cint) : cint :=
  (rsub (rmul (fst z) (fst w)) (rmul (snd z) (snd w)),
   radd (rmul (fst z) (snd w)) (rmul (snd z) (fst w))).
Definition norm2 (z : cint) : rint := radd (rsqr (fst z)) (rsqr (snd z)).
(** [z / w = z * conj w / |w|^2] *)
Definition box_div (z w : cint) : cint :=
  let n := rinv (norm2 w) in
  let p := box_mul z (fst w, rneg (snd w)) in
  (rmul (fst p) n, rmul (snd p) n).
Definition box_abs (z : cint) : rint := rsqrt (norm2 z).

(** The principal argument of a box that keeps away from the
    non-positive real axis. *)
Definition box_arg (z : cint) : option rint :=
  let (x, y) := z in
  if is_pos y then Some (rsub (half rpi) (ratan (rdiv x y)))
  else if is_neg y then Some (rsub (rneg (half rpi)) (ratan (rdiv x y)))
  else if is_pos x then Some (ratan (rdiv y x))
  else None.

(** The principal logarithm: [ln |z| + i arg z]. *)
Definition box_log (z : cint) : result cint :=
  match box_arg z with
  | Some a => Returned (half (rln (norm2 z)), a)
  | None => Raised ValueError
  end.

Definition rgt_int (x : rint) (n : Z) : bool :=
  match x with Ival a _ => n * one <? a | NaN => false end.
Definition rlt_float (x : rint) (f : Q) : bool :=
  match x with
  | Ival _ b => b * Zpos (Qden f) <? Qnum f * one
  | NaN => false
  end.

Definition field : IntervalField :=
  {| CI := cint; RI := rint;
     of_int := box_of_int;
     of_2j := (rof_int 0, rof_int 2);
     pi := (rpi, rof_int 0);
     add := box_add; sub := box_sub; mul := box_mul; div := box_div;
     log := box_log;
     imag := snd;
     cabs := box_abs;
     gt_int := rgt_int;
     lt_float := rlt_float |}.

(** The box [[a, b] + [c, d] i]. *)
Definition box (a b c d : Q) : cint := (rof_QQ a b, rof_QQ c d).

End Precision.

End Reference.

(** ** Concrete inputs *)

Module Examples.

Local Open Scope Z_scope.

Definition bits : nat := 53.
Definition CIF53 : IntervalField := Reference.field bits.

Definition box53 (a b c d : Q) : CI CIF53 := Reference.box bits a b c d.

(** The regular ideal tetrahedron, [z = 1/2 + (sqrt 3 / 2) i]. *)
Definition regular_shape : CI CIF53 :=
  box53 (1 # 2) (1 # 2) (866025 # 1000000) (866026 # 1000000).

(** The figure-eight knot complement: two regular tetrahedra, one
    complete cusp, two edge equations, a meridian and a longitude. *)
Definition m004 : Manifold :=
  {| num_tetrahedra := 2;
     num_cusps := 1;
     cusp_info := fun _ => {| complete := true |};
     gluing_equations := [ [2; 1; 0; 1; 0; 2];
                           [0; 1; 2; 1; 2; 0];
                           [1; 0; 0; 0; -1; 0];
                           [0; 0; 0; 0; -2; 2] ] |}.

Definition m004_shapes : list (CI CIF53) := [regular_shape; regular_shape].

(** Synthetic inputs with one tetrahedron and one cusp. *)
Definition one_tetrahedron (is_complete : bool) (equations : list (list Z))
  : Manifold :=
  {| num_tetrahedra := 1;
     num_cusps := 1;
     cusp_info := fun _ => {| complete := is_complete |};
     gluing_equations := equations |}.

(** [z = i]: [log z = i pi/2], [log z' = -(ln 2)/2 + i pi/4],
    [log z'' = (ln 2)/2 + i pi/4]. *)
Definition shape_i : CI CIF53 := box53 0 0 1 1.

(** [z = 2.117 i], for which [4 log z] is [2 pi i + 3] up to [10^-5]. *)
Definition shape_far : CI CIF53 := box53 0 0 (2117 # 1000) (2117 # 1000).

(** [z = 1 - i], below the real axis. *)
Definition shape_below : CI CIF53 := box53 1 1 (-1) (-1).

(** A box around zero: its logarithm is not defined. *)
Definition shape_around_zero : CI CIF53 := box53 (-1) 1 (-1) 1.

(** The logarithm sequence of a shape list (empty if it raises). *)
Definition logs_of (shapes : list (CI CIF53)) : list (CI CIF53) :=
  match compute_logs CIF53 shapes with
  | Returned logs => logs
  | Raised _ => []
  end.

(** One tetrahedron of shape [i], a complete cusp: the edge sum is
    [2 (log z + log z' + log z'') = 2 pi i], meridian and longitude are
    [log z - log z' - log z'' = 0]. *)
Definition synthetic : Manifold :=
  one_tetrahedron true [ [2; 2; 2]; [1; -1; -1]; [1; -1; -1] ].

(** One tetrahedron of shape [2.117 i]: the edge sum [4 log z] is
    [2 pi i + 3]. *)
Definition off_by_three : Manifold :=
  one_tetrahedron true [ [4; 0; 0]; [1; -1; -1]; [1; -1; -1] ].

(** The figure-eight knot complement with one equation too many. *)
Definition m004_surplus : Manifold :=
  with_equations m004 (gluing_equations m004 ++ [ [7; 7; 7; 7; 7; 7] ]).

(** The figure-eight knot complement without its longitude equation. *)
Definition m004_short : Manifold :=
  with_equations m004 (firstn 3 (gluing_equations m004)).

(** One tetrahedron of shape [i] with coefficient vectors of lengths
    1, 0 and 5 instead of 3, and the same with the surplus cut off. *)
Definition ragged : Manifold :=
  one_tetrahedron true [ [4]; []; [0; 0; 0; 9; 9] ].
Definition ragged_cut : Manifold :=
  one_tetrahedron true [ [4]; []; [0; 0; 0] ].

(** The figure-eight knot complement as another object: it answers
    differently, but only about cusps it does not have. *)
Definition m004_again : Manifold :=
{| num_tetrahedra := 2;
   num_cusps := 1;
   cusp_info := fun i => {| complete := Nat.eqb i 0 |};
   gluing_equations := gluing_equations m004 |}.

(** A solver that knows the two manifolds above. *)
Definition solver (bits_prec : nat) (manifold : Manifold)
  : result (list (CI (Reference.field bits_prec))) :=
  match num_tetrahedra manifold with
  | 2%nat =>
      let z := Reference.box bits_prec (1 # 2) (1 # 2)
                             (866025 # 1000000) (866026 # 1000000) in
      Returned [z; z]
  | 1%nat => Returned [Reference.box bits_prec 0 0 1 1]
  | _ => Raised RuntimeError
  end.

(** One tetrahedron of shape [i] whose longitude sum is
    [- log z''], not [0]. *)
Definition bad_longitude : Manifold :=
  one_tetrahedron true [ [2; 2; 2]; [1; -1; -1]; [1; -1; -2] ].

(** A manifold that reports no tetrahedron and no cusp. *)
Definition nothing_to_check : Manifold :=
  {| num_tetrahedra := 0;
     num_cusps := 0;
     cusp_info := fun _ => {| complete := true |};
     gluing_equations := [ [5; 5; 5] ] |}.

(** One tetrahedron and its edge equation, before any cusp is added. *)
Definition no_cusp_yet : Manifold :=
  {| num_tetrahedra := 1;
     num_cusps := 0;
     cusp_info := fun _ => {| complete := false |};
     gluing_equations := [ [2; 2; 2] ] |}.

(** A wide box above the real axis: the enclosure of [(z - 1) / z]
    contains zero, so its logarithm raises. *)
Definition shape_wide : CI CIF53 := box53 (-10) 10 (1 # 10) 1.

(** The logarithm sequences of the shape lists above, evaluated. *)
Definition shape_i_logs : list (CI CIF53) :=
  Eval vm_compute in logs_of [shape_i].
Definition shape_far_logs : list (CI CIF53) :=
  Eval vm_compute in logs_of [shape_far].
Definition regular_logs : list (CI CIF53) :=
  Eval vm_compute in logs_of [regular_shape].
Definition m004_logs : list (CI CIF53) :=
  Eval vm_compute in logs_of m004_shapes.

(** Two tetrahedra of shapes [i] and [2.117 i], no cusp: each edge sum
    is [2 (log z + log z' + log z'') = 2 pi i]. *)
Definition two_tetrahedra : Manifold :=
  {| num_tetrahedra := 2;
     num_cusps := 0;
     cusp_info := fun _ => {| complete := true |};
     gluing_equations := [ [2; 2; 2; 0; 0; 0]; [0; 0; 0; 2; 2; 2] ] |}.

(** The same with the second edge sum [4 log z1], which is
    [2 pi i + 3]. *)
Definition second_edge_off : Manifold :=
  {| num_tetrahedra := 2;
     num_cusps := 0;
     cusp_info := fun _ => {| complete := true |};
     gluing_equations := [ [2; 2; 2; 0; 0; 0]; [0; 0; 0; 4; 0; 0] ] |}.

(** One tetrahedron of shape [i], a complete cusp and then a filled
    one: the filled cusp's sum [4 log z] is [2 pi i]. *)
Definition two_cusps : Manifold :=
  {| num_tetrahedra := 1;
     num_cusps := 2;
     cusp_info := fun i => {| complete := Nat.eqb i 0 |};
     gluing_equations :=
       [ [2; 2; 2]; [1; -1; -1]; [1; -1; -1]; [4; 0; 0] ] |}.

(** The same with the filled cusp's sum [log z - log z' - log z''],
    which is [0]. *)
Definition two_cusps_off : Manifold :=
  {| num_tetrahedra := 1;
     num_cusps := 2;
     cusp_info := fun i => {| complete := Nat.eqb i 0 |};
     gluing_equations :=
       [ [2; 2; 2]; [1; -1; -1]; [1; -1; -1]; [1; -1; -1] ] |}.

Definition i_far_shapes : list (CI CIF53) := [shape_i; shape_far].

Definition i_far_logs : list (CI CIF53) :=
  Eval vm_compute in logs_of i_far_shapes.

End Examples.

(** ** Points and enclosures

    Modelled from the spec: the interval library is not part of the
    source; section 3 of the specification gives its invariant.  An
    interval is the enclosure of an unknown number, and an operation
    returns an enclosure of the true result at every point of its
    arguments.  A point is a complex number with rational parts, and
    [contains] tells which points an interval encloses. *)

Definition point : Type := (Q * Q)%type.

Definition point_sub (x y : point) : point :=
  ((fst x - fst y)%Q, (snd x - snd y)%Q).

(** The square of the modulus. *)
Definition modulus2 (x : point) : Q :=
  (fst x * fst x + snd x * snd x)%Q.

Section Enclosures.

Variable F : IntervalField.
Variable contains : CI F -> point -> Prop.

(** Modelled from the spec: a difference of intervals encloses the
    differences of their points. *)
Definition encloses_sub : Prop :=
  forall X Y x y,
    contains X x -> contains Y y -> contains (sub F X Y) (point_sub x y).

(** Modelled from the spec: [abs] encloses the moduli and [<] holds of
    an interval only if it holds of all its points; so when [abs(Z) < q]
    is [True], every point of [Z] has a modulus below [q]. *)
Definition encloses_abs_lt : Prop :=
  forall Z z (q : Q),
    (0 <= q)%Q -> contains Z z -> lt_float F (cabs F Z) q = true ->
    (modulus2 z < q * q)%Q.

End Enclosures.

(** The points of an interval and of a box of the reference field. *)
Definition reference_contains_real (bits_prec : nat) (A : Reference.rint)
           (x : Q) : Prop :=
  match A with
  | Reference.Ival a b =>
      (inject_Z a <= x * inject_Z (Reference.one bits_prec))%Q /\
      (x * inject_Z (Reference.one bits_prec) <= inject_Z b)%Q
  | Reference.NaN => False
  end.

Definition reference_contains (bits_prec : nat) (z : Reference.cint)
           (x : point) : Prop :=
  reference_contains_real bits_prec (fst z) (fst x) /\
  reference_contains_real bits_prec (snd z) (snd x).

(** The largest fixed-point number of 53 bits below one tenth, as a
    left-hand side. *)
Definition just_below_one_tenth : CI Examples.CIF53 :=
  (Reference.Ival 900719925474099 900719925474099, Reference.Ival 0 0).

(** * Properties *)

Unset Implicit Arguments.

(** ** The monad *)

Lemma outcome_bind {A B} (m : Py A) (k : A -> Py B) :
  outcome (bind m k) =
  match outcome m with
  | Returned a => outcome (k a)
  | Raised e => Raised e
  end.
Proof.
  destruct m as [out [a | e]]; simpl; [ | reflexivity ].
  destruct (k a); reflexivity.
Qed.

Lemma bind_ret_l {A B} (a : A) (k : A -> Py B) : bind (ret a) k = k a.
Proof. unfold bind, ret. destruct (k a); reflexivity. Qed.

Lemma bind_quiet {A B} (r : result A) (k : A -> Py B) :
  bind (lift r) k = match r with Returned a => k a | Raised e => raise e end.
Proof. destruct r; [ apply bind_ret_l | reflexivity ]. Qed.

Lemma print_if_then_return {A} verbose line (a : A) :
  (print_if verbose line ;;; ret a) = (said verbose line, Returned a).
Proof. destruct verbose; reflexivity. Qed.

(** ** Lists *)

Lemma skipn_nth_error {A} (xs : list A) i :
  skipn i xs =
  match nth_error xs i with
  | Some x => x :: skipn (S i) xs
  | None => []
  end.
Proof.
  revert i; induction xs as [ | x xs IH ]; intros [ | i ]; simpl; try reflexivity.
  rewrite IH. destruct (nth_error xs i); reflexivity.
Qed.

Section Loops.

Variable F : IntervalField.

Local Abbreviation CI := (CI F).

Lemma check_all_app (ts1 ts2 LHSs : list CI) :
  check_all F (ts1 ++ ts2) LHSs =
  match check_all F ts1 LHSs with
  | Returned true => check_all F ts2 (skipn (List.length ts1) LHSs)
  | r => r
  end.
Proof.
  revert LHSs; induction ts1 as [ | t ts1 IH ]; intros LHSs; simpl.
  - reflexivity.
  - destruct LHSs as [ | lhs LHSs ]; [ reflexivity | ].
    destruct (within_tolerance F lhs t); [ apply IH | reflexivity ].
Qed.

Lemma orientation_loop_outcome verbose (shapes : list CI) :
  outcome (orientation_loop F verbose shapes) =
  if forallb (positive_imag F) shapes then Returned (Continue tt)
  else Returned (ReturnValue false).
Proof.
  induction shapes as [ | z shapes IH ]; simpl; [ reflexivity | ].
  destruct (positive_imag F z); simpl; [ exact IH | ].
  rewrite print_if_then_return. reflexivity.
Qed.

Lemma edge_loop_outcome verbose (LHSs : list CI) todo :
  forall edge_index i,
    outcome (edge_loop F verbose LHSs todo edge_index i) =
    after_checks F (repeat (TWO_PI_I F) todo) LHSs i.
Proof.
  unfold after_checks.
  induction todo as [ | todo IH ]; intros edge_index i; simpl.
  - rewrite Nat.add_0_r. reflexivity.
  - rewrite outcome_bind, (skipn_nth_error LHSs i). unfold getitem.
    destruct (nth_error LHSs i) as [ lhs | ]; simpl; [ | reflexivity ].
    destruct (within_tolerance F lhs (TWO_PI_I F)); simpl.
    + rewrite IH, repeat_length, Nat.add_succ_r. reflexivity.
    + rewrite print_if_then_return. reflexivity.
Qed.

Lemma cusp_equation_loop_outcome verbose (LHSs : list CI) value cusp_index todo :
  forall j i,
    outcome (cusp_equation_loop F verbose LHSs value cusp_index todo j i) =
    after_checks F (repeat value todo) LHSs i.
Proof.
  unfold after_checks.
  induction todo as [ | todo IH ]; intros j i; simpl.
  - rewrite Nat.add_0_r. reflexivity.
  - rewrite outcome_bind, (skipn_nth_error LHSs i). unfold getitem.
    destruct (nth_error LHSs i) as [ lhs | ]; simpl; [ | reflexivity ].
    destruct (within_tolerance F lhs value); simpl.
    + rewrite IH, repeat_length, Nat.add_succ_r. reflexivity.
    + rewrite print_if_then_return. reflexivity.
Qed.

Lemma cusp_equations_targets info :
  cusp_targets F info =
  repeat (snd (cusp_equations F info)) (fst (cusp_equations F info)).
Proof. unfold cusp_targets, cusp_equations. destruct (complete info); reflexivity. Qed.

Lemma cusp_loop_outcome verbose manifold (LHSs : list CI) todo :
  forall cusp_index i,
    outcome (cusp_loop F verbose manifold LHSs todo cusp_index i) =
    after_checks F (flat_map (fun c => cusp_targets F (cusp_info manifold c))
                           (seq cusp_index todo)) LHSs i.
Proof.
  induction todo as [ | todo IH ]; intros cusp_index i; simpl.
  - unfold after_checks. simpl. rewrite Nat.add_0_r. reflexivity.
  - rewrite cusp_equations_targets.
    destruct (cusp_equations F (cusp_info manifold cusp_index)) as [n value].
    simpl fst; simpl snd.
    rewrite outcome_bind, cusp_equation_loop_outcome.
    unfold after_checks. rewrite check_all_app.
    destruct (check_all F (repeat value n) (skipn i LHSs)) as [ [ | ] | e ];
      simpl; try reflexivity.
    rewrite IH. unfold after_checks.
    rewrite skipn_skipn, length_app, (Nat.add_comm (List.length _) i), Nat.add_assoc.
    reflexivity.
Qed.

End Loops.

Arguments bind : simpl never.

Section Outcome.

Variable F : IntervalField.

Local Abbreviation CI := (CI F).
Local Abbreviation verify :=
  (verify_logarithmic_gluing_equations_and_positively_oriented_tets F).

(** The value the verifier ends with is the one the specification
    describes, whatever [verbose] is. *)
Lemma verify_outcome manifold (shapes : list CI) verbose :
  outcome (verify manifold shapes verbose) = verify_spec F manifold shapes.
Proof.
  unfold verify_logarithmic_gluing_equations_and_positively_oriented_tets,
    verify_spec.
  rewrite outcome_bind, orientation_loop_outcome.
  destruct (forallb (positive_imag F) shapes); simpl; [ | reflexivity ].
  rewrite outcome_bind. simpl.
  destruct (compute_logs F shapes) as [ logs | e ]; simpl; [ | reflexivity ].
  rewrite outcome_bind.
  destruct shapes as [ | z0 shapes ]; simpl; [ reflexivity | ].
  set (LHSs := map (LHS_of F logs) (gluing_equations manifold)).
  rewrite outcome_bind, edge_loop_outcome.
  unfold expected_targets, edge_targets, all_cusp_targets, after_checks.
  rewrite check_all_app. simpl skipn.
  destruct (check_all F (repeat (TWO_PI_I F) (num_tetrahedra manifold)) LHSs)
    as [ [ | ] | e ]; simpl; try reflexivity.
  rewrite outcome_bind, cusp_loop_outcome. unfold after_checks.
  destruct (check_all F _ (skipn _ LHSs)) as [ [ | ] | e ]; reflexivity.
Qed.

End Outcome.

(** ** The checks in order *)

Section Checks.

Variable F : IntervalField.

Local Abbreviation CI := (CI F).

Lemma check_passes_cons (t : CI) ts lhs LHSs i :
  check_passes F (t :: ts) (lhs :: LHSs) (S i) <-> check_passes F ts LHSs i.
Proof. reflexivity. Qed.

Lemma check_fails_cons (t : CI) ts lhs LHSs i :
  check_fails F (t :: ts) (lhs :: LHSs) (S i) <-> check_fails F ts LHSs i.
Proof. reflexivity. Qed.

(** All checks pass. *)
Lemma check_all_true (targets LHSs : list CI) :
  check_all F targets LHSs = Returned true <->
  forall i, i < List.length targets -> check_passes F targets LHSs i.
Proof.
  revert LHSs; induction targets as [ | t ts IH ]; intros LHSs; simpl.
  - split; [ intros _ i Hi; lia | reflexivity ].
  - destruct LHSs as [ | lhs LHSs ].
    + split; [ discriminate | ].
      intros H. destruct (H 0); lia.
    + destruct (within_tolerance F lhs t) eqn:Hw.
      * rewrite IH. split.
        -- intros H [ | i ] Hi; [ exact Hw | apply H; lia ].
        -- intros H i Hi. apply (H (S i)). lia.
      * split; [ discriminate | ].
        intros H. specialize (H 0 ltac:(lia)). unfold check_passes in H.
        simpl in H. congruence.
Qed.

(** Some check fails, and it is the first one not to pass. *)
Lemma check_all_false (targets LHSs : list CI) :
  check_all F targets LHSs = Returned false <->
  exists i, check_fails F targets LHSs i /\
            forall j, j < i -> check_passes F targets LHSs j.
Proof.
  revert LHSs; induction targets as [ | t ts IH ]; intros LHSs; simpl.
  - split; [ discriminate | ].
    intros [i [H _]]. unfold check_fails in H. destruct i; exact (False_ind _ H).
  - destruct LHSs as [ | lhs LHSs ].
    + split; [ discriminate | ].
      intros [i [H Hlt]]. destruct i as [ | i ].
      * exact (False_ind _ H).
      * exact (False_ind _ (Hlt 0 ltac:(lia))).
    + destruct (within_tolerance F lhs t) eqn:Hw.
      * rewrite IH. split.
        -- intros [i [Hf Hp]]. exists (S i). split; [ exact Hf | ].
           intros [ | j ] Hj; [ exact Hw | apply Hp; lia ].
        -- intros [[ | i ] [Hf Hp]].
           ++ unfold check_fails in Hf. simpl in Hf. congruence.
           ++ exists i. split; [ exact Hf | ].
              intros j Hj. apply (Hp (S j)). lia.
      * split; [ intros _ | reflexivity ].
        exists 0. split; [ exact Hw | intros j Hj; lia ].
Qed.

(** The equation list runs out before a check fails. *)
Lemma check_all_raised (targets LHSs : list CI) e :
  check_all F targets LHSs = Raised e <->
  e = IndexError /\ List.length LHSs < List.length targets /\
  forall i, i < List.length LHSs -> check_passes F targets LHSs i.
Proof.
  revert LHSs; induction targets as [ | t ts IH ]; intros LHSs; simpl.
  - split; [ discriminate | intros (_ & H & _); lia ].
  - destruct LHSs as [ | lhs LHSs ]; simpl.
    + split.
      * intros H; inversion H. repeat split; [ lia | intros i Hi; lia ].
      * intros (-> & _); reflexivity.
    + destruct (within_tolerance F lhs t) eqn:Hw.
      * rewrite IH. split; intros (-> & Hlen & H); repeat split; try lia.
        -- intros [ | i ] Hi; [ exact Hw | apply H; lia ].
        -- intros i Hi. apply (H (S i)). lia.
      * split; [ discriminate | ].
        intros (_ & _ & H). specialize (H 0 ltac:(lia)).
        unfold check_passes in H. simpl in H. congruence.
Qed.

(** Left-hand sides beyond the last target are never read. *)
Lemma check_all_firstn (targets LHSs : list CI) :
  check_all F targets LHSs =
  check_all F targets (firstn (List.length targets) LHSs).
Proof.
  revert LHSs; induction targets as [ | t ts IH ]; intros LHSs; simpl.
  - reflexivity.
  - destruct LHSs as [ | lhs LHSs ]; simpl; [ reflexivity | ].
    destruct (within_tolerance F lhs t); [ apply IH | reflexivity ].
Qed.

Lemma check_all_returns (targets LHSs : list CI) :
  List.length targets <= List.length LHSs ->
  exists b, check_all F targets LHSs = Returned b.
Proof.
  intros Hlen. destruct (check_all F targets LHSs) as [ b | e ] eqn:H.
  - exists b; reflexivity.
  - apply check_all_raised in H. lia.
Qed.

Lemma expected_targets_length manifold :
  List.length (expected_targets F manifold) = expected_equation_count manifold.
Proof.
  unfold expected_targets, expected_equation_count, edge_targets,
    all_cusp_targets.
  rewrite length_app, repeat_length. f_equal.
  induction (seq 0 (num_cusps manifold)) as [ | c cs IH ]; simpl.
  - reflexivity.
  - rewrite length_app, IH. unfold cusp_targets.
    destruct (complete (cusp_info manifold c)); reflexivity.
Qed.

Lemma edge_target_nth manifold k :
  k < num_tetrahedra manifold ->
  nth_error (expected_targets F manifold) k = Some (TWO_PI_I F).
Proof.
  intros Hk. unfold expected_targets, edge_targets.
  rewrite nth_error_app1 by (rewrite repeat_length; exact Hk).
  apply nth_error_repeat; exact Hk.
Qed.

End Checks.

(** ** What is printed on the way to a failed check *)

Lemma bind_returned {A B} out (a : A) (k : A -> Py B) :
  bind (out, Returned a) k = (out ++ output (k a), outcome (k a)).
Proof. unfold bind. destruct (k a); reflexivity. Qed.

Section Messages.

Variable F : IntervalField.

Local Abbreviation CI := (CI F).

Lemma positively_oriented_forallb (shapes : list CI) :
  positively_oriented F shapes <-> forallb (positive_imag F) shapes = true.
Proof.
  unfold positively_oriented. rewrite Forall_forall, forallb_forall.
  reflexivity.
Qed.

Lemma not_oriented_forallb (shapes : list CI) :
  Exists (fun z => positive_imag F z = false) shapes <->
  forallb (positive_imag F) shapes = false.
Proof.
  induction shapes as [ | z shapes IH ]; simpl.
  - split; [ intros H; inversion H | discriminate ].
  - rewrite Exists_cons, IH.
    destruct (positive_imag F z); simpl; intuition congruence.
Qed.

Lemma orientation_loop_pass verbose (shapes : list CI) :
  positively_oriented F shapes ->
  orientation_loop F verbose shapes = ret (Continue tt).
Proof.
  induction 1 as [ | z shapes Hz _ IH ]; simpl; [ reflexivity | ].
  rewrite Hz. exact IH.
Qed.

Lemma orientation_loop_fail verbose (shapes : list CI) :
  Exists (fun z => positive_imag F z = false) shapes ->
  orientation_loop F verbose shapes =
  (said verbose "Shape with non-positive imaginary part",
   Returned (ReturnValue false)).
Proof.
  induction shapes as [ | z shapes IH ]; intros H; [ inversion H | ].
  simpl. destruct (positive_imag F z) eqn:Hz; simpl.
  - apply IH. inversion H; [ congruence | assumption ].
  - apply print_if_then_return.
Qed.

(** The edge loop stops at the first edge equation out of tolerance. *)
Lemma edge_loop_first_failure verbose (LHSs : list CI) todo :
  forall edge_index i k,
    k < todo ->
    (forall j, j < k ->
               check_passes F (repeat (TWO_PI_I F) todo) (skipn i LHSs) j) ->
    check_fails F (repeat (TWO_PI_I F) todo) (skipn i LHSs) k ->
    edge_loop F verbose LHSs todo edge_index i =
    (said verbose ("Edge equation " ++ fmt_d (edge_index + k) ++ " failed"),
     Returned (ReturnValue false)).
Proof.
  induction todo as [ | todo IH ]; intros edge_index i k Hk Hpass Hfail;
    [ lia | ].
  simpl. unfold getitem.
  rewrite (skipn_nth_error LHSs i) in Hpass, Hfail.
  destruct (nth_error LHSs i) as [ lhs | ].
  - rewrite bind_ret_l. destruct k as [ | k ].
    + unfold check_fails in Hfail. simpl in Hfail. rewrite Hfail. simpl.
      rewrite Nat.add_0_r. apply print_if_then_return.
    + assert (H0 := Hpass 0 ltac:(lia)). unfold check_passes in H0.
      simpl in H0. rewrite H0. simpl.
      rewrite (IH (S edge_index) (S i) k).
      * rewrite Nat.add_succ_r. reflexivity.
      * lia.
      * intros j Hj. apply (Hpass (S j)). lia.
      * exact Hfail.
  - unfold check_fails in Hfail. simpl in Hfail.
    destruct k; simpl in Hfail; try contradiction.
    destruct (nth_error (repeat (TWO_PI_I F) todo) k); contradiction.
Qed.

End Messages.

Section Oriented.

Variable F : IntervalField.

Local Abbreviation CI := (CI F).

(** Past the orientation check, the logarithms and the base-field
    lookup, the value is decided by the checks in order. *)
Lemma verify_spec_checks manifold (shapes : list CI) logs :
  positively_oriented F shapes ->
  shapes <> [] ->
  compute_logs F shapes = Returned logs ->
  verify_spec F manifold shapes =
  check_all F (expected_targets F manifold)
            (map (LHS_of F logs) (gluing_equations manifold)).
Proof.
  intros Hpos Hne Hlogs. unfold verify_spec.
  apply positively_oriented_forallb in Hpos. rewrite Hpos, Hlogs. simpl.
  destruct shapes; [ contradiction | reflexivity ].
Qed.

(** The same for the whole run, up to the edge loop. *)
Lemma verify_from_edge_loop manifold (shapes : list CI) logs verbose :
  positively_oriented F shapes ->
  shapes <> [] ->
  compute_logs F shapes = Returned logs ->
  verify_logarithmic_gluing_equations_and_positively_oriented_tets
    F manifold shapes verbose =
  (e <- edge_loop F verbose
                  (map (LHS_of F logs) (gluing_equations manifold))
                  (num_tetrahedra manifold) 0 0 ;;
   match e with
   | ReturnValue b => ret b
   | Continue LHS_index =>
       c <- cusp_loop F verbose manifold
                      (map (LHS_of F logs) (gluing_equations manifold))
                      (num_cusps manifold) 0 LHS_index ;;
       match c with
       | ReturnValue b => ret b
       | Continue _ => ret true
       end
   end).
Proof.
  intros Hpos Hne Hlogs.
  unfold verify_logarithmic_gluing_equations_and_positively_oriented_tets.
  rewrite (orientation_loop_pass F verbose _ Hpos), bind_ret_l, Hlogs.
  change (lift (Returned logs)) with (ret logs). rewrite bind_ret_l.
  destruct shapes as [ | z0 shapes ]; [ contradiction | ].
  change (getitem (z0 :: shapes) 0) with (ret z0).
  rewrite bind_ret_l. reflexivity.
Qed.

Lemma check_passes_edge manifold (LHSs : list CI) k :
  k < num_tetrahedra manifold ->
  check_passes F (expected_targets F manifold) LHSs k <->
  exists lhs, nth_error LHSs k = Some lhs /\
              within_tolerance F lhs (TWO_PI_I F) = true.
Proof.
  intros Hk. unfold check_passes. rewrite (edge_target_nth F manifold k Hk).
  destruct (nth_error LHSs k) as [ lhs | ].
  - split; [ intros H; exists lhs; auto | intros [l [Hl H]]; congruence ].
  - split; [ contradiction | intros [l [Hl _]]; discriminate ].
Qed.

(** The manifold enters through its two counts, its equations and the
    cusps below the cusp count. *)
Lemma verify_spec_same_data manifold manifold' (shapes : list CI) :
num_tetrahedra manifold = num_tetrahedra manifold' ->
num_cusps manifold = num_cusps manifold' ->
(forall i, i < num_cusps manifold ->
           cusp_info manifold i = cusp_info manifold' i) ->
gluing_equations manifold = gluing_equations manifold' ->
verify_spec F manifold shapes = verify_spec F manifold' shapes.
Proof.
intros Htet Hcusps Hinfo Heqs.
unfold verify_spec, expected_targets, edge_targets, all_cusp_targets.
rewrite <- Htet, <- Hcusps, <- Heqs.
rewrite !flat_map_concat_map.
rewrite (map_ext_in _ (fun i => cusp_targets F (cusp_info manifold' i))).
- reflexivity.
- intros i Hi. apply in_seq in Hi. rewrite Hinfo by lia. reflexivity.
Qed.

End Oriented.

(** ** The logarithm sequence and the left-hand sides *)

Section Logs.

Variable F : IntervalField.

Local Abbreviation CI := (CI F).

Lemma compute_logs_cons z (rest logs : list CI) :
  compute_logs F (z :: rest) = Returned logs <->
  exists l lp lpp logs',
    log F z = Returned l /\
    log F (shape_zp F z) = Returned lp /\
    log F (shape_zpp F z) = Returned lpp /\
    compute_logs F rest = Returned logs' /\
    logs = l :: lp :: lpp :: logs'.
Proof.
  unfold compute_logs. simpl. change (shape_z F z) with z.
  destruct (log F z) as [ a | ]; destruct (log_each F (shape_z F) rest);
    destruct (log F (shape_zp F z)) as [ b | ];
    destruct (log_each F (shape_zp F) rest);
    destruct (log F (shape_zpp F z)) as [ c | ];
    destruct (log_each F (shape_zpp F) rest);
    (split;
     [ intros H; try discriminate H; injection H as <-;
       do 4 eexists; repeat split; reflexivity
     | intros (l & lp & lpp & logs' & H1 & H2 & H3 & H4 & ->);
       unfold interleave in *; simpl in *; congruence ]).
Qed.

Lemma compute_logs_interleaved (shapes logs : list CI) :
  compute_logs F shapes = Returned logs <-> interleaved_logs F shapes logs.
Proof.
  revert logs; induction shapes as [ | z shapes IH ]; intros logs.
  - split.
    + intros H. injection H as <-. constructor.
    + intros H. inversion H. reflexivity.
  - rewrite compute_logs_cons. split.
    + intros (l & lp & lpp & logs' & H1 & H2 & H3 & H4 & ->).
      constructor; try assumption. apply IH; assumption.
    + intros H. inversion H; subst.
      do 4 eexists. repeat split; try eassumption. apply IH; assumption.
  Qed.

Lemma interleaved_logs_length (shapes logs : list CI) :
  interleaved_logs F shapes logs ->
  List.length logs = 3 * List.length shapes.
Proof. induction 1; simpl in *; lia. Qed.

Lemma combine_nth_lt (equation : list Z) (logs : list CI) n dz dl :
  n < List.length (combine equation logs) ->
  nth n (combine equation logs) (dz, dl) = (nth n equation dz, nth n logs dl).
Proof.
  revert logs n; induction equation as [ | c equation IH ];
    intros [ | l logs ] [ | n ] Hn; simpl in *; try lia; try reflexivity.
  apply IH. lia.
Qed.

Lemma firstn_succ_nth {A} (xs : list A) n d :
  n < List.length xs -> firstn (S n) xs = firstn n xs ++ [nth n xs d].
Proof.
  revert n; induction xs as [ | x xs IH ]; intros [ | n ] Hn; simpl in *;
    try lia; try reflexivity.
  f_equal. apply IH. lia.
Qed.

Lemma py_sum_snoc (xs : list CI) x :
  py_sum F (xs ++ [x]) = add F (py_sum F xs) x.
Proof. unfold py_sum. rewrite fold_left_app. reflexivity. Qed.

Lemma dot_product_firstn (equation : list Z) (logs : list CI) n :
  n <= List.length (combine equation logs) ->
  dot_product F equation logs n =
  py_sum F (map (fun p : Z * CI => mul F (of_int F (fst p)) (snd p))
                (firstn n (combine equation logs))).
Proof.
  induction n as [ | n IH ]; intros Hn; [ reflexivity | ].
  rewrite (firstn_succ_nth _ n (0%Z, of_int F 0%Z)) by lia.
  rewrite map_app. cbn [map].
  rewrite py_sum_snoc, <- IH by lia.
  rewrite combine_nth_lt by lia. reflexivity.
Qed.

(** The left-hand side is the dot product over the common prefix. *)
Lemma LHS_of_dot_product (logs : list CI) (equation : list Z) :
  LHS_of F logs equation =
  dot_product F equation logs
              (Nat.min (List.length equation) (List.length logs)).
Proof.
  rewrite dot_product_firstn by (rewrite length_combine; lia).
  rewrite <- length_combine, firstn_all. reflexivity.
Qed.

Lemma LHS_of_surplus_coefficients (logs : list CI) (equation : list Z) :
  LHS_of F logs equation =
  LHS_of F logs (firstn (List.length logs) equation).
Proof. unfold LHS_of. rewrite <- combine_firstn_r. reflexivity. Qed.

Lemma LHS_of_surplus_logs (logs : list CI) (equation : list Z) :
  LHS_of F logs equation =
  LHS_of F (firstn (List.length equation) logs) equation.
Proof. unfold LHS_of. rewrite <- combine_firstn_l. reflexivity. Qed.

Lemma LHSs_surplus_coefficients (logs : list CI) (equations : list (list Z)) :
  map (LHS_of F logs) equations =
  map (LHS_of F logs) (map (firstn (List.length logs)) equations).
Proof.
  rewrite map_map. apply map_ext. intros equation.
  apply LHS_of_surplus_coefficients.
Qed.

End Logs.

(** ** The manifold is only asked for its counts, cusps and equations *)

Lemma bind_ext {A B} (m : Py A) (k k' : A -> Py B) :
  (forall a, outcome m = Returned a -> k a = k' a) -> bind m k = bind m k'.
Proof.
  destruct m as [out [ a | e ]]; intros H; unfold bind; [ | reflexivity ].
  rewrite (H a eq_refl). reflexivity.
Qed.

Section Equations.

Variable F : IntervalField.

Local Abbreviation CI := (CI F).

Lemma cusp_loop_with_equations verbose manifold equations (LHSs : list CI) todo :
  forall cusp_index i,
    cusp_loop F verbose (with_equations manifold equations) LHSs todo
              cusp_index i =
    cusp_loop F verbose manifold LHSs todo cusp_index i.
Proof.
  induction todo as [ | todo IH ]; intros cusp_index i; simpl;
    [ reflexivity | ].
  destruct (cusp_equations F (cusp_info manifold cusp_index)) as [n value].
  apply bind_ext. intros [ i' | b ] _; [ apply IH | reflexivity ].
Qed.

(** Two equation lists with the same left-hand sides give the same run. *)
Lemma verify_with_equations manifold equations (shapes : list CI) verbose :
  (forall logs, compute_logs F shapes = Returned logs ->
                map (LHS_of F logs) equations =
                map (LHS_of F logs) (gluing_equations manifold)) ->
  verify_logarithmic_gluing_equations_and_positively_oriented_tets
    F (with_equations manifold equations) shapes verbose =
  verify_logarithmic_gluing_equations_and_positively_oriented_tets
    F manifold shapes verbose.
Proof.
  intros H.
  unfold verify_logarithmic_gluing_equations_and_positively_oriented_tets.
  apply bind_ext. intros [ [] | b ] _; [ | reflexivity ].
  apply bind_ext. intros logs Hlogs. simpl.
  rewrite (H logs Hlogs).
  apply bind_ext. intros _ _.
  apply bind_ext. intros [ i | b ] _; [ | reflexivity ].
  rewrite cusp_loop_with_equations. reflexivity.
Qed.

End Equations.

(** ** verify_hyperbolicity *)

Section HyperbolicityOutcome.

Variable ComplexIntervalField : nat -> IntervalField.
Variable tetrahedra_shapes :
  forall bits_prec : nat,
    Manifold -> result (list (CI (ComplexIntervalField bits_prec))).

Lemma verify_hyperbolicity_outcome manifold verbose bits_prec :
  outcome (verify_hyperbolicity ComplexIntervalField tetrahedra_shapes
                                manifold verbose bits_prec) =
  match tetrahedra_shapes bits_prec manifold with
  | Raised _ => Returned (false, [])
  | Returned shapes =>
      match verify_spec (ComplexIntervalField bits_prec) manifold shapes with
      | Returned true => Returned (true, shapes)
      | Returned false => Returned (false, [])
      | Raised e => Raised e
      end
  end.
Proof.
  unfold verify_hyperbolicity.
  destruct (tetrahedra_shapes bits_prec manifold) as [ shapes | e ].
  - rewrite outcome_bind, verify_outcome.
    destruct (verify_spec _ manifold shapes) as [ [ | ] | ]; reflexivity.
  - rewrite print_if_then_return. reflexivity.
Qed.

End HyperbolicityOutcome.

(** ** The concrete inputs, evaluated once

    The logarithm sequences of the concrete shape lists are evaluated
    here, once; the runs below then only evaluate the checks. *)

Lemma shape_i_logs_computed :
  compute_logs Examples.CIF53 [Examples.shape_i] =
  Returned Examples.shape_i_logs.
Proof. vm_compute. reflexivity. Qed.

Lemma shape_far_logs_computed :
  compute_logs Examples.CIF53 [Examples.shape_far] =
  Returned Examples.shape_far_logs.
Proof. vm_compute. reflexivity. Qed.

Lemma regular_logs_computed :
  compute_logs Examples.CIF53 [Examples.regular_shape] =
  Returned Examples.regular_logs.
Proof. vm_compute. reflexivity. Qed.

Lemma m004_logs_computed :
  compute_logs Examples.CIF53 Examples.m004_shapes =
  Returned Examples.m004_logs.
Proof.
  pose proof regular_logs_computed as H.
  apply compute_logs_interleaved in H. unfold Examples.regular_logs in H.
  inversion H as [ | z shapes l lp lpp logs H1 H2 H3 H4 ]; subst.
  apply compute_logs_interleaved.
  unfold Examples.m004_shapes, Examples.m004_logs.
  repeat (constructor; try assumption).
Qed.

Lemma logs_of_m004 :
  Examples.logs_of Examples.m004_shapes = Examples.m004_logs.
Proof. unfold Examples.logs_of. rewrite m004_logs_computed. reflexivity. Qed.

Lemma shape_i_oriented :
  positively_oriented Examples.CIF53 [Examples.shape_i].
Proof. repeat constructor. Qed.

Lemma m004_oriented :
  positively_oriented Examples.CIF53 Examples.m004_shapes.
Proof. repeat constructor. Qed.

(** A run on the one-tetrahedron shape list [[i]], from the edge loop
    on. *)
Lemma run_on_shape_i manifold verbose :
  verify_logarithmic_gluing_equations_and_positively_oriented_tets
    Examples.CIF53 manifold [Examples.shape_i] verbose =
  (e <- edge_loop Examples.CIF53 verbose
                  (map (LHS_of Examples.CIF53 Examples.shape_i_logs)
                       (gluing_equations manifold))
                  (num_tetrahedra manifold) 0 0 ;;
   match e with
   | ReturnValue b => ret b
   | Continue LHS_index =>
       c <- cusp_loop Examples.CIF53 verbose manifold
                      (map (LHS_of Examples.CIF53 Examples.shape_i_logs)
                           (gluing_equations manifold))
                      (num_cusps manifold) 0 LHS_index ;;
       match c with
       | ReturnValue b => ret b
       | Continue _ => ret true
       end
   end).
Proof.
  apply verify_from_edge_loop;
    [ exact shape_i_oriented | discriminate | exact shape_i_logs_computed ].
Qed.

(** A run on the two regular tetrahedra, from the edge loop on. *)
Lemma run_on_m004_shapes manifold verbose :
  verify_logarithmic_gluing_equations_and_positively_oriented_tets
    Examples.CIF53 manifold Examples.m004_shapes verbose =
  (e <- edge_loop Examples.CIF53 verbose
                  (map (LHS_of Examples.CIF53 Examples.m004_logs)
                       (gluing_equations manifold))
                  (num_tetrahedra manifold) 0 0 ;;
   match e with
   | ReturnValue b => ret b
   | Continue LHS_index =>
       c <- cusp_loop Examples.CIF53 verbose manifold
                      (map (LHS_of Examples.CIF53 Examples.m004_logs)
                           (gluing_equations manifold))
                      (num_cusps manifold) 0 LHS_index ;;
       match c with
       | ReturnValue b => ret b
       | Continue _ => ret true
       end
   end).
Proof.
  apply verify_from_edge_loop;
    [ exact m004_oriented | discriminate | exact m004_logs_computed ].
Qed.

Lemma m004_run :
  verify_logarithmic_gluing_equations_and_positively_oriented_tets
    Examples.CIF53 Examples.m004 Examples.m004_shapes false =
  ([], Returned true).
Proof. rewrite run_on_m004_shapes. vm_compute. reflexivity. Qed.

Lemma m004_spec :
  verify_spec Examples.CIF53 Examples.m004 Examples.m004_shapes =
  Returned true.
Proof.
  rewrite <- (verify_outcome Examples.CIF53 Examples.m004
                             Examples.m004_shapes false), m004_run.
  reflexivity.
Qed.

Lemma i_far_logs_computed :
  compute_logs Examples.CIF53 Examples.i_far_shapes =
  Returned Examples.i_far_logs.
Proof.
  pose proof shape_i_logs_computed as Hi.
  pose proof shape_far_logs_computed as Hf.
  apply compute_logs_interleaved in Hi, Hf.
  unfold Examples.shape_i_logs in Hi. unfold Examples.shape_far_logs in Hf.
  inversion Hi; subst. inversion Hf; subst.
  apply compute_logs_interleaved.
  unfold Examples.i_far_shapes, Examples.i_far_logs.
  repeat (constructor; try assumption).
Qed.

Lemma i_far_oriented :
  positively_oriented Examples.CIF53 Examples.i_far_shapes.
Proof. repeat constructor. Qed.

(** ** The checks and the logarithms, spelled out *)

Section Spelled.

Variable F : IntervalField.

Local Abbreviation CI := (CI F).

Lemma check_passes_spelled (targets LHSs : list CI) i :
  check_passes F targets LHSs i <->
  exists value lhs,
    nth_error targets i = Some value /\
    nth_error LHSs i = Some lhs /\
    lt_float F (cabs F (sub F lhs value))
             (3602879701896397 # 36028797018963968)%Q = true.
Proof.
  unfold check_passes, within_tolerance, float_0_1.
  destruct (nth_error targets i) as [ value | ];
    destruct (nth_error LHSs i) as [ lhs | ]; split;
    try contradiction;
    try (intros (v & l & H1 & H2 & _); discriminate).
  - intros H. exists value, lhs. repeat split. exact H.
  - intros (v & l & H1 & H2 & H). injection H1 as <-. injection H2 as <-.
    exact H.
Qed.

Lemma check_fails_spelled (targets LHSs : list CI) i :
  check_fails F targets LHSs i <->
  exists value lhs,
    nth_error targets i = Some value /\
    nth_error LHSs i = Some lhs /\
    lt_float F (cabs F (sub F lhs value))
             (3602879701896397 # 36028797018963968)%Q = false.
Proof.
  unfold check_fails, within_tolerance, float_0_1.
  destruct (nth_error targets i) as [ value | ];
    destruct (nth_error LHSs i) as [ lhs | ]; split;
    try contradiction;
    try (intros (v & l & H1 & H2 & _); discriminate).
  - intros H. exists value, lhs. repeat split. exact H.
  - intros (v & l & H1 & H2 & H). injection H1 as <-. injection H2 as <-.
    exact H.
Qed.

(** The three logarithms of shape [i] stand at [3 i], [3 i + 1] and
    [3 i + 2]. *)
Lemma interleaved_logs_nth (shapes logs : list CI) :
  interleaved_logs F shapes logs ->
  forall i z,
    nth_error shapes i = Some z ->
    exists l lp lpp,
      nth_error logs (3 * i) = Some l /\
      nth_error logs (3 * i + 1) = Some lp /\
      nth_error logs (3 * i + 2) = Some lpp /\
      log F z = Returned l /\
      log F (div F (of_int F 1%Z) (sub F (of_int F 1%Z) z)) = Returned lp /\
      log F (div F (sub F z (of_int F 1%Z)) z) = Returned lpp.
Proof.
  induction 1 as [ | z0 shapes l lp lpp logs H1 H2 H3 _ IH ];
    intros i z Hi.
  - destruct i; discriminate.
  - destruct i as [ | i ].
    + injection Hi as <-. exists l, lp, lpp. repeat split; assumption.
    + destruct (IH i z Hi) as (a & b & c & Ha & Hb & Hc & Hlogs).
      exists a, b, c.
      replace (3 * S i) with (S (S (S (3 * i)))) by lia.
      repeat split; try assumption; apply Hlogs.
Qed.

(** The double nearest to one tenth. *)
Lemma float_0_1_is_one_tenth :
  (float_0_1 == 3602879701896397 # 36028797018963968)%Q /\
  (1 # 10 < float_0_1)%Q /\
  (float_0_1 < (1 # 10) + (1 # 100000000000000000))%Q.
Proof. repeat split. Qed.

End Spelled.

(** ** The reference field encloses *)

Section ReferenceEnclosures.

Variable bits_prec : nat.

Local Open Scope Q_scope.

Lemma one_positive : (0 < Reference.one bits_prec)%Z.
Proof. unfold Reference.one. apply Z.pow_pos_nonneg; lia. Qed.

Lemma cdiv_mul_ge n m : (0 < m)%Z -> (n <= Reference.cdiv n m * m)%Z.
Proof.
  intros Hm. unfold Reference.cdiv.
  pose proof (Z.mul_div_le (- n) m Hm). lia.
Qed.

Lemma inject_Z_nonneg z : (0 <= z)%Z -> 0 <= inject_Z z.
Proof.
  intros H. change (inject_Z 0 <= inject_Z z). rewrite <- Zle_Qle. exact H.
Qed.

Lemma inject_Z_nonpos z : (z <= 0)%Z -> inject_Z z <= 0.
Proof.
  intros H. change (inject_Z z <= inject_Z 0). rewrite <- Zle_Qle. exact H.
Qed.

Lemma inject_Z_pos z : (0 < z)%Z -> 0 < inject_Z z.
Proof.
  intros H. change (inject_Z 0 < inject_Z z). rewrite <- Zlt_Qlt. exact H.
Qed.

Lemma Q_num_den (q : Q) : q * inject_Z (Zpos (Qden q)) == inject_Z (Qnum q).
Proof. destruct q as [n d]. unfold Qeq. simpl. lia. Qed.

Lemma reference_encloses_sub :
  encloses_sub (Reference.field bits_prec) (reference_contains bits_prec).
Proof.
  intros [[a b | ] [c d | ]] [[a' b' | ] [c' d' | ]] [x1 x2] [y1 y2];
    unfold reference_contains; simpl; try tauto.
  unfold Z.sub. rewrite !inject_Z_plus, !inject_Z_opp.
  intros [[H1 H2] [H3 H4]] [[H5 H6] [H7 H8]]. repeat split; lra.
Qed.

(** The upper end of a square bounds the squares of the points. *)
Lemma rsqr_encloses a b (X : Q) :
  inject_Z a <= X -> X <= inject_Z b ->
  exists l h,
    Reference.rsqr bits_prec (Reference.Ival a b) = Reference.Ival l h /\
    (0 <= l)%Z /\
    X * X <= inject_Z (h * Reference.one bits_prec).
Proof.
  intros Ha Hb. pose proof one_positive as Hone. unfold Reference.rsqr.
  pose proof (cdiv_mul_ge (a * a) _ Hone) as Haa.
  pose proof (cdiv_mul_ge (b * b) _ Hone) as Hbb.
  rewrite Zle_Qle in Haa, Hbb. rewrite inject_Z_mult in Haa, Hbb.
  destruct (0 <=? a)%Z eqn:Hsa.
  - apply Z.leb_le in Hsa. eexists; eexists. split; [ reflexivity | ].
    split; [ apply Z.div_pos; nia | ].
    apply inject_Z_nonneg in Hsa. nra.
  - apply Z.leb_gt in Hsa. destruct (b <=? 0)%Z eqn:Hsb.
    + apply Z.leb_le in Hsb. eexists; eexists. split; [ reflexivity | ].
      split; [ apply Z.div_pos; nia | ].
      apply inject_Z_nonpos in Hsb. nra.
    + eexists; eexists. split; [ reflexivity | ]. split; [ lia | ].
      set (u := Reference.cdiv (a * a) (Reference.one bits_prec)) in *.
      set (v := Reference.cdiv (b * b) (Reference.one bits_prec)) in *.
      assert (Hu : inject_Z (u * Reference.one bits_prec) <=
                   inject_Z (Z.max u v * Reference.one bits_prec)).
      { rewrite <- Zle_Qle. apply Z.mul_le_mono_nonneg_r; lia. }
      assert (Hv : inject_Z (v * Reference.one bits_prec) <=
                   inject_Z (Z.max u v * Reference.one bits_prec)).
      { rewrite <- Zle_Qle. apply Z.mul_le_mono_nonneg_r; lia. }
      destruct (Qlt_le_dec X 0) as [Hneg | Hpos]; nra.
Qed.

Lemma reference_encloses_abs_lt :
  encloses_abs_lt (Reference.field bits_prec) (reference_contains bits_prec).
Proof.
  intros [[a b | ] [c d | ]] [x y] q Hq [Hre Him] Hlt;
    simpl in Hre, Him; try contradiction.
  destruct Hre as [Ha Hb]. destruct Him as [Hc Hd].
  destruct (rsqr_encloses a b _ Ha Hb) as (l1 & h1 & E1 & L1 & B1).
  destruct (rsqr_encloses c d _ Hc Hd) as (l2 & h2 & E2 & L2 & B2).
  pose proof one_positive as Hone.
  simpl in Hlt. unfold Reference.box_abs, Reference.norm2 in Hlt.
  simpl fst in Hlt. simpl snd in Hlt. rewrite E1, E2 in Hlt.
  simpl Reference.radd in Hlt. unfold Reference.rsqrt in Hlt.
  replace (0 <=? l1 + l2)%Z with true in Hlt
    by (symmetry; apply Z.leb_le; lia).
  unfold Reference.rlt_float in Hlt. apply Z.ltb_lt in Hlt.
  set (K := inject_Z (Reference.one bits_prec)) in *.
  assert (HK : 0 < K) by (apply inject_Z_pos; exact Hone).
  set (N := ((h1 + h2) * Reference.one bits_prec)%Z) in *.
  assert (HN : x * K * (x * K) + y * K * (y * K) <= inject_Z N).
  { unfold N. rewrite Z.mul_add_distr_r, inject_Z_plus. lra. }
  assert (HN0 : (0 <= N)%Z).
  { rewrite Zle_Qle. change (inject_Z 0) with 0. nra. }
  pose proof (Z.sqrt_spec N HN0) as [_ Hs]. pose proof (Z.sqrt_nonneg N) as Hs0.
  set (T := (Z.sqrt N + 1)%Z) in *.
  assert (HT : inject_Z N < inject_Z T * inject_Z T).
  { rewrite <- inject_Z_mult, <- Zlt_Qlt. unfold T. lia. }
  assert (HT0 : 0 < inject_Z T) by (apply inject_Z_pos; unfold T; lia).
  rewrite Zlt_Qlt in Hlt. rewrite !inject_Z_mult in Hlt.
  rewrite <- (Q_num_den q) in Hlt. fold K in Hlt.
  assert (HD : 0 < inject_Z (Zpos (Qden q))) by (apply inject_Z_pos; lia).
  set (D := inject_Z (Zpos (Qden q))) in *.
  assert (HTq : inject_Z T < q * K) by nra.
  unfold modulus2. simpl.
  assert (Hsq : inject_Z T * inject_Z T < q * K * (q * K)) by nra.
  assert (HKK : 0 < K * K) by nra.
  nra.
Qed.

End ReferenceEnclosures.

(** ** The claims *)

Local Abbreviation verify :=
  verify_logarithmic_gluing_equations_and_positively_oriented_tets.

(** C1. A shape interval whose imaginary part is not strictly positive makes
    the verifier return [False] at once: this holds whatever the manifold
    and the interval library are, so for an equation list that is too short
    to be indexed and for shapes whose logarithm would raise as well; only
    the orientation message is printed.  Conversely the verifier returns
    [True] only if every shape interval has a strictly positive imaginary
    part. *)
Theorem orientation_check_is_final
        (F : IntervalField) (manifold : Manifold)
        (shape_intervals : list (CI F)) (verbose : bool) :
  (Exists (fun z => positive_imag F z = false) shape_intervals ->
   verify F manifold shape_intervals verbose =
   (said verbose "Shape with non-positive imaginary part", Returned false))
  /\
  (outcome (verify F manifold shape_intervals verbose) = Returned true ->
   positively_oriented F shape_intervals).
Proof.
  split.
  - intros H.
    unfold verify_logarithmic_gluing_equations_and_positively_oriented_tets.
    rewrite (orientation_loop_fail F verbose _ H), bind_returned. simpl.
    rewrite app_nil_r. reflexivity.
  - rewrite verify_outcome. unfold verify_spec. intros H.
    apply positively_oriented_forallb.
    destruct (forallb (positive_imag F) shape_intervals);
      [ reflexivity | discriminate ].
Qed.

(** The orientation check on a box around zero, with no equations at all:
    neither the logarithm (which would raise) nor an equation (which
    would be missing) is looked at. *)
Lemma orientation_check_is_final_witness :
  Reference.box_log Examples.bits Examples.shape_around_zero = Raised ValueError /\
  verify Examples.CIF53 (Examples.one_tetrahedron true [])
         [Examples.shape_i; Examples.shape_around_zero] true =
  (["Shape with non-positive imaginary part"], Returned false).
Proof.
  split; [ vm_compute; reflexivity | ].
  apply (orientation_check_is_final Examples.CIF53
           (Examples.one_tetrahedron true [])
           [Examples.shape_i; Examples.shape_around_zero] true).
  apply Exists_cons_tl, Exists_cons_hd. vm_compute. reflexivity.
Defined.

(** C9. On an empty shape list the verifier does not return a boolean: the
    orientation loop is vacuous, and indexing the first shape interval to
    get the base field raises [IndexError]. *)
Theorem empty_shape_list_raises
        (F : IntervalField) (manifold : Manifold) (verbose : bool) :
  verify F manifold [] verbose = ([], Raised IndexError).
Proof. reflexivity. Qed.

(** C2. Past the orientation check, each of the first [n_tet] equations, in
    order, is required to be within the tolerance [0.1] of [2 pi i], that
    is [abs(LHS - pi * 2j) < 0.1] with [0.1] the double nearest to one
    tenth: at the first edge equation [k] for which this test is false,
    the verifier returns [False] (and names [k] when verbose); and it
    returns [True] only if every edge equation is there and passes. *)
Theorem edge_equations_checked_against_two_pi_i
        (F : IntervalField) (manifold : Manifold)
        (shape_intervals : list (CI F)) (verbose : bool) (logs : list (CI F)) :
  positively_oriented F shape_intervals ->
  shape_intervals <> [] ->
  compute_logs F shape_intervals = Returned logs ->
  let LHSs := map (LHS_of F logs) (gluing_equations manifold) in
  let two_pi_i := mul F (pi F) (of_2j F) in
  let tolerance := (3602879701896397 # 36028797018963968)%Q in
  let near_two_pi_i lhs :=
    lt_float F (cabs F (sub F lhs two_pi_i)) tolerance in
  ((1 # 10 < tolerance)%Q /\
   (tolerance < (1 # 10) + (1 # 100000000000000000))%Q)
  /\
  (forall k lhs,
      k < num_tetrahedra manifold ->
      (forall j, j < k ->
                 exists l, nth_error LHSs j = Some l /\
                           near_two_pi_i l = true) ->
      nth_error LHSs k = Some lhs ->
      near_two_pi_i lhs = false ->
      verify F manifold shape_intervals verbose =
      (said verbose ("Edge equation " ++ fmt_d k ++ " failed"), Returned false))
  /\
  (outcome (verify F manifold shape_intervals verbose) = Returned true ->
   forall k, k < num_tetrahedra manifold ->
             exists lhs, nth_error LHSs k = Some lhs /\
                         near_two_pi_i lhs = true).
Proof.
  intros Hpos Hne Hlogs LHSs two_pi_i tolerance near_two_pi_i.
  split; [ split; reflexivity | ].
  assert (Hnear : forall lhs,
             near_two_pi_i lhs = within_tolerance F lhs (TWO_PI_I F))
    by reflexivity.
  split.
  - intros k lhs Hk Hbefore Hlhs Hout.
    rewrite (verify_from_edge_loop F manifold _ logs verbose Hpos Hne Hlogs).
    fold LHSs.
    rewrite (edge_loop_first_failure F verbose LHSs (num_tetrahedra manifold)
               0 0 k Hk).
    + rewrite bind_returned. simpl. rewrite app_nil_r. reflexivity.
    + intros j Hj. destruct (Hbefore j Hj) as [l [Hl Hw]].
      unfold check_passes. simpl skipn.
      rewrite nth_error_repeat by lia. rewrite Hl, <- Hnear. exact Hw.
    + unfold check_fails. simpl skipn.
      rewrite nth_error_repeat by lia. rewrite Hlhs, <- Hnear. exact Hout.
  - rewrite verify_outcome, (verify_spec_checks F manifold _ logs Hpos Hne Hlogs).
    fold LHSs. intros Htrue k Hk.
    destruct (proj1 (check_passes_edge F manifold LHSs k Hk)) as [lhs [Hl Hw]].
    + apply (proj1 (check_all_true F _ _) Htrue).
      rewrite expected_targets_length. unfold expected_equation_count. lia.
    + exists lhs. split; [ exact Hl | rewrite Hnear; exact Hw ].
Qed.

(** Two tetrahedra: the first edge sum is [2 pi i] and passes, the
    second is [2 pi i + 3] and makes the verifier return [False]. *)
Lemma edge_equations_checked_against_two_pi_i_witness :
  verify Examples.CIF53 Examples.second_edge_off Examples.i_far_shapes true =
  (["Edge equation 1 failed"], Returned false).
Proof.
  destruct (edge_equations_checked_against_two_pi_i
              Examples.CIF53 Examples.second_edge_off Examples.i_far_shapes
              true Examples.i_far_logs) as (_ & Hfail & _).
  - exact i_far_oriented.
  - discriminate.
  - exact i_far_logs_computed.
  - eapply (Hfail 1).
    + vm_compute. reflexivity.
    + intros j Hj. assert (j = 0) as -> by lia.
      eexists. split; [ reflexivity | vm_compute; reflexivity ].
    + reflexivity.
    + vm_compute. reflexivity.
Defined.

(** C3. After the edge equations the cusps are taken in order with one
    running cursor: a complete cusp takes the next two equations, each
    checked against [0], a filled cusp the next one, checked against
    [2 pi i]; a check is [abs(LHS - target) < 0.1] with [0.1] the double
    nearest to one tenth.  The verifier returns [True] iff every check
    is made and passes, and [False] iff some check fails and all before
    it pass. *)
Theorem cusp_equations_checked_in_order
        (F : IntervalField) (manifold : Manifold)
        (shape_intervals : list (CI F)) (verbose : bool) (logs : list (CI F)) :
  positively_oriented F shape_intervals ->
  shape_intervals <> [] ->
  compute_logs F shape_intervals = Returned logs ->
  let LHSs := map (LHS_of F logs) (gluing_equations manifold) in
  let two_pi_i := mul F (pi F) (of_2j F) in
  let zero := of_int F 0%Z in
  let tolerance := (3602879701896397 # 36028797018963968)%Q in
  let targets :=
    repeat two_pi_i (num_tetrahedra manifold) ++
    flat_map (fun i => if complete (cusp_info manifold i)
                       then [zero; zero]
                       else [two_pi_i])
             (seq 0 (num_cusps manifold)) in
  let check (expected : bool) i :=
    exists value lhs,
      nth_error targets i = Some value /\
      nth_error LHSs i = Some lhs /\
      lt_float F (cabs F (sub F lhs value)) tolerance = expected in
  let r := outcome (verify F manifold shape_intervals verbose) in
  ((1 # 10 < tolerance)%Q /\
   (tolerance < (1 # 10) + (1 # 100000000000000000))%Q)
  /\ List.length targets =
     num_tetrahedra manifold +
     list_sum (map (fun i => if complete (cusp_info manifold i)
                             then 2 else 1)
                   (seq 0 (num_cusps manifold)))
  /\ (r = Returned true <->
      forall i, i < List.length targets -> check true i)
  /\ (r = Returned false <->
      exists i, check false i /\ forall j, j < i -> check true j).
Proof.
  intros Hpos Hne Hlogs LHSs two_pi_i zero tolerance targets check r.
  assert (Hr : r = check_all F targets LHSs).
  { unfold r. rewrite verify_outcome.
    apply (verify_spec_checks F manifold _ logs Hpos Hne Hlogs). }
  assert (Hp : forall i, check true i <-> check_passes F targets LHSs i)
    by (intros i; symmetry; apply check_passes_spelled).
  assert (Hf : forall i, check false i <-> check_fails F targets LHSs i)
    by (intros i; symmetry; apply check_fails_spelled).
  split; [ split; reflexivity | ].
  split; [ apply (expected_targets_length F manifold) | ].
  rewrite Hr. split.
  - rewrite check_all_true. split; intros H i Hi; apply Hp, H, Hi.
  - rewrite check_all_false. split; intros (i & Hi & Hbefore); exists i.
    + split; [ apply Hf, Hi | intros j Hj; apply Hp, Hbefore, Hj ].
    + split; [ apply Hf, Hi | intros j Hj; apply Hp, Hbefore, Hj ].
Qed.

(** One tetrahedron, a complete cusp and a filled one.  With the filled
    cusp's sum [2 pi i] all four checks pass; with the sum [0] there the
    fourth check is the first to fail. *)
Lemma cusp_equations_checked_in_order_witness :
  outcome (verify Examples.CIF53 Examples.two_cusps [Examples.shape_i] false)
  = Returned true /\
  outcome (verify Examples.CIF53 Examples.two_cusps_off [Examples.shape_i]
                  false)
  = Returned false.
Proof.
  split.
  - destruct (cusp_equations_checked_in_order
                Examples.CIF53 Examples.two_cusps [Examples.shape_i] false
                Examples.shape_i_logs) as (_ & _ & Htrue & _).
    + exact shape_i_oriented.
    + discriminate.
    + exact shape_i_logs_computed.
    + apply Htrue. intros i Hi. change (i < 4) in Hi.
      destruct i as [ | [ | [ | [ | i ] ] ] ]; [ .. | exfalso; lia ];
        (eexists; eexists;
         split; [ reflexivity | split; [ reflexivity | ] ];
         vm_compute; reflexivity).
  - destruct (cusp_equations_checked_in_order
                Examples.CIF53 Examples.two_cusps_off [Examples.shape_i] false
                Examples.shape_i_logs) as (_ & _ & _ & Hfalse).
    + exact shape_i_oriented.
    + discriminate.
    + exact shape_i_logs_computed.
    + apply Hfalse. exists 3. split.
      * eexists; eexists.
        split; [ reflexivity | split; [ reflexivity | ] ].
        vm_compute. reflexivity.
      * intros j Hj.
        destruct j as [ | [ | [ | j ] ] ]; [ .. | exfalso; lia ];
          (eexists; eexists;
           split; [ reflexivity | split; [ reflexivity | ] ];
           vm_compute; reflexivity).
Defined.

(** C4, as the code has it.  Every tolerance check, for an edge and for
    a cusp alike, is the one test [abs(LHS - target) < 0.1] on the
    enclosures, with [0.1] the double nearest to one tenth.  Over an
    interval library whose subtraction, [abs] and [<] enclose, the test
    is [True] only if every point of the left-hand side's enclosure lies
    within [0.1] of every point of the target's enclosure, so it is the
    worst case of the interval that is compared and not its centre; and
    when the verifier returns [True], this holds of every expected
    equation. *)
Theorem tolerance_check_is_worst_case
        (F : IntervalField) (contains : CI F -> point -> Prop)
        (manifold : Manifold) (shape_intervals : list (CI F))
        (verbose : bool) :
  encloses_sub F contains ->
  encloses_abs_lt F contains ->
  let tolerance := (3602879701896397 # 36028797018963968)%Q in
  let two_pi_i := mul F (pi F) (of_2j F) in
  let zero := of_int F 0%Z in
  let targets :=
    repeat two_pi_i (num_tetrahedra manifold) ++
    flat_map (fun i => if complete (cusp_info manifold i)
                       then [zero; zero]
                       else [two_pi_i])
             (seq 0 (num_cusps manifold)) in
  let all_points_within (lhs value : CI F) :=
    forall x t, contains lhs x -> contains value t ->
                (modulus2 (point_sub x t) < tolerance * tolerance)%Q in
  (forall lhs value,
      within_tolerance F lhs value =
      lt_float F (cabs F (sub F lhs value)) tolerance)
  /\
  (forall lhs value,
      lt_float F (cabs F (sub F lhs value)) tolerance = true ->
      all_points_within lhs value)
  /\
  (outcome (verify F manifold shape_intervals verbose) = Returned true ->
   exists logs,
     compute_logs F shape_intervals = Returned logs /\
     forall i value,
       nth_error targets i = Some value ->
       exists lhs,
         nth_error (map (LHS_of F logs) (gluing_equations manifold)) i
         = Some lhs /\
         all_points_within lhs value).
Proof.
  intros Hsub Habs tolerance two_pi_i zero targets all_points_within.
  assert (Hsound : forall lhs value,
             lt_float F (cabs F (sub F lhs value)) tolerance = true ->
             all_points_within lhs value).
  { intros lhs value Htest x t Hx Ht.
    apply (Habs (sub F lhs value) (point_sub x t) tolerance).
    - discriminate.
    - apply Hsub; assumption.
    - exact Htest. }
  split; [ reflexivity | ].
  split; [ exact Hsound | ].
  rewrite verify_outcome. unfold verify_spec. intros Htrue.
  destruct (forallb (positive_imag F) shape_intervals); [ | discriminate ].
  cbn [negb] in Htrue.
  destruct (compute_logs F shape_intervals) as [ logs | e ];
    [ | discriminate ].
  destruct shape_intervals as [ | z0 shapes ]; [ discriminate | ].
  exists logs. split; [ reflexivity | ].
  intros i value Hi.
  assert (Hlt : i < List.length (expected_targets F manifold)).
  { apply nth_error_Some. change (nth_error targets i <> None).
    rewrite Hi. discriminate. }
  apply (proj1 (check_all_true F _ _) Htrue), check_passes_spelled in Hlt.
  destruct Hlt as (value' & lhs & Hv & Hl & Htest).
  change (nth_error targets i = Some value') in Hv.
  rewrite Hi in Hv. injection Hv as <-.
  exists lhs. split; [ exact Hl | ]. apply Hsound. exact Htest.
Qed.

(** The reference field encloses, and on it the certificate of the
    figure-eight knot complement bounds every point of its four
    left-hand sides. *)
Lemma tolerance_check_is_worst_case_witness :
  exists logs,
    compute_logs Examples.CIF53 Examples.m004_shapes = Returned logs /\
    forall i value,
      nth_error (expected_targets Examples.CIF53 Examples.m004) i = Some value ->
      exists lhs,
        nth_error (map (LHS_of Examples.CIF53 logs)
                       (gluing_equations Examples.m004)) i = Some lhs /\
        forall x t,
          reference_contains Examples.bits lhs x ->
          reference_contains Examples.bits value t ->
          (modulus2 (point_sub x t) < float_0_1 * float_0_1)%Q.
Proof.
  destruct (tolerance_check_is_worst_case
              Examples.CIF53 (reference_contains Examples.bits)
              Examples.m004 Examples.m004_shapes false
              (reference_encloses_sub Examples.bits)
              (reference_encloses_abs_lt Examples.bits)) as (_ & _ & H).
  exact (H (f_equal snd m004_run)).
Defined.

(** C4, as stated, fails in one direction.  On the reference field of
    53 bits, take the left-hand side [900719925474099 / 2^53], the largest
    fixed-point number below one tenth, and the target [0]: every point
    of the enclosure lies within one tenth of the target (and one tenth
    is below the double [0.1]), yet [abs(LHS - 0) < 0.1] is [False],
    because the upper end of [abs] is rounded up. *)
Lemma tolerance_check_is_not_an_iff :
  (forall x t,
      reference_contains Examples.bits just_below_one_tenth x ->
      reference_contains Examples.bits (of_int Examples.CIF53 0%Z) t ->
      (modulus2 (point_sub x t) < (1 # 10) * (1 # 10))%Q)
  /\ (1 # 10 < float_0_1)%Q
  /\ lt_float Examples.CIF53
       (cabs Examples.CIF53
          (sub Examples.CIF53 just_below_one_tenth
               (of_int Examples.CIF53 0%Z)))
       (3602879701896397 # 36028797018963968)%Q = false
  /\ within_tolerance Examples.CIF53 just_below_one_tenth
                      (of_int Examples.CIF53 0%Z) = false.
Proof.
  split; [ | split; [ reflexivity | split; vm_compute; reflexivity ] ].
  intros [x1 x2] [t1 t2] [[H1 H2] [H3 H4]] [[H5 H6] [H7 H8]].
  unfold modulus2, point_sub. cbn [fst snd] in *.
  change (inject_Z (Reference.one Examples.bits))
    with (9007199254740992 # 1)%Q in *.
  change (inject_Z 900719925474099) with (900719925474099 # 1)%Q in *.
  change (inject_Z 0) with 0%Q in *.
  change (inject_Z (0 * Reference.one Examples.bits)) with 0%Q in *.
  assert (Hx2 : (x2 == 0)%Q) by lra.
  assert (Ht1 : (t1 == 0)%Q) by lra.
  assert (Ht2 : (t2 == 0)%Q) by lra.
  assert (Hx1 : (0 <= x1)%Q) by lra.
  assert (Hx1' : (x1 < 1 # 10)%Q) by lra.
  rewrite Hx2, Ht1, Ht2. nra.
Qed.

(** C5. The logarithm sequence is
    [log z0, log z0', log z0'', log z1, log z1', log z1'', ...], with
    [z' = 1/(1-z)] and [z'' = (z-1)/z] and [log] the library's logarithm:
    the three logarithms of shape [i] stand at [3 i], [3 i + 1] and
    [3 i + 2].  The left-hand side of an equation is the dot product of
    its integer coefficients with this sequence, in this order, summed
    from the left; and the verifier checks exactly these left-hand
    sides. *)
Theorem logarithms_interleaved_and_summed
        (F : IntervalField) (manifold : Manifold)
        (shape_intervals : list (CI F)) (verbose : bool) (logs : list (CI F)) :
  (compute_logs F shape_intervals = Returned logs <->
   interleaved_logs F shape_intervals logs)
  /\
  (compute_logs F shape_intervals = Returned logs ->
   List.length logs = 3 * List.length shape_intervals /\
   forall i z,
     nth_error shape_intervals i = Some z ->
     exists l lp lpp,
       nth_error logs (3 * i) = Some l /\
       nth_error logs (3 * i + 1) = Some lp /\
       nth_error logs (3 * i + 2) = Some lpp /\
       log F z = Returned l /\
       log F (div F (of_int F 1%Z) (sub F (of_int F 1%Z) z)) = Returned lp /\
       log F (div F (sub F z (of_int F 1%Z)) z) = Returned lpp)
  /\
  (forall equation,
      LHS_of F logs equation =
      dot_product F equation logs
                  (Nat.min (List.length equation) (List.length logs)))
  /\
  (positively_oriented F shape_intervals ->
   shape_intervals <> [] ->
   compute_logs F shape_intervals = Returned logs ->
   outcome (verify F manifold shape_intervals verbose) =
   check_all F (expected_targets F manifold)
     (map (fun equation =>
             dot_product F equation logs
                         (Nat.min (List.length equation) (List.length logs)))
          (gluing_equations manifold))).
Proof.
  split; [ apply compute_logs_interleaved | ].
  split.
  { intros Hlogs. apply compute_logs_interleaved in Hlogs. split.
    - apply (interleaved_logs_length F shape_intervals). exact Hlogs.
    - apply interleaved_logs_nth. exact Hlogs. }
  split; [ intros equation; apply LHS_of_dot_product | ].
  intros Hpos Hne Hlogs.
  rewrite verify_outcome,
    (verify_spec_checks F manifold _ logs Hpos Hne Hlogs).
  f_equal. apply map_ext. intros equation. apply LHS_of_dot_product.
Qed.

(** Two tetrahedra of shapes [i] and [2.117 i], for which [z], [z'] and
    [z''] differ: the six logarithms in order, and the two edge sums
    [2 (log z + log z' + log z'')], each [2 pi i]. *)
Lemma logarithms_interleaved_and_summed_witness :
  interleaved_logs Examples.CIF53 Examples.i_far_shapes Examples.i_far_logs /\
  (exists l lp lpp,
      nth_error Examples.i_far_logs 3 = Some l /\
      nth_error Examples.i_far_logs 4 = Some lp /\
      nth_error Examples.i_far_logs 5 = Some lpp /\
      log Examples.CIF53 Examples.shape_far = Returned l /\
      log Examples.CIF53
          (div Examples.CIF53 (of_int Examples.CIF53 1%Z)
               (sub Examples.CIF53 (of_int Examples.CIF53 1%Z)
                    Examples.shape_far)) = Returned lp /\
      log Examples.CIF53
          (div Examples.CIF53
               (sub Examples.CIF53 Examples.shape_far
                    (of_int Examples.CIF53 1%Z))
               Examples.shape_far) = Returned lpp) /\
  outcome (verify Examples.CIF53 Examples.two_tetrahedra Examples.i_far_shapes
                  false)
  = Returned true.
Proof.
  destruct (logarithms_interleaved_and_summed
              Examples.CIF53 Examples.two_tetrahedra Examples.i_far_shapes
              false Examples.i_far_logs) as (H1 & H2 & _ & H4).
  split; [ apply H1; exact i_far_logs_computed | ].
  split.
  - destruct (H2 i_far_logs_computed) as [_ Hnth].
    apply (Hnth 1 Examples.shape_far). reflexivity.
  - rewrite H4.
    + vm_compute. reflexivity.
    + exact i_far_oriented.
    + discriminate.
    + exact i_far_logs_computed.
Defined.

(** C10. The length of a coefficient vector is not validated: the
    left-hand side is the dot product over the common prefix of
    coefficients and logarithms, coefficients beyond the last logarithm
    are ignored, logarithms beyond the last coefficient contribute
    nothing, and a run is not changed by what the equations hold beyond
    the last logarithm. *)
Theorem coefficient_vector_length_not_validated
        (F : IntervalField) (manifold : Manifold)
        (shape_intervals : list (CI F)) (verbose : bool)
        (logs : list (CI F)) (equation : list Z) :
  LHS_of F logs equation =
  dot_product F equation logs
              (Nat.min (List.length equation) (List.length logs))
  /\ LHS_of F logs equation =
     LHS_of F logs (firstn (List.length logs) equation)
  /\ LHS_of F logs equation =
     LHS_of F (firstn (List.length equation) logs) equation
  /\ (compute_logs F shape_intervals = Returned logs ->
      forall equations,
        map (firstn (List.length logs)) equations =
        map (firstn (List.length logs)) (gluing_equations manifold) ->
        verify F (with_equations manifold equations) shape_intervals verbose =
        verify F manifold shape_intervals verbose).
Proof.
  split; [ apply LHS_of_dot_product | ].
  split; [ apply LHS_of_surplus_coefficients | ].
  split; [ apply LHS_of_surplus_logs | ].
  intros Hlogs equations Heq.
  apply verify_with_equations. intros logs' Hlogs'.
  assert (logs' = logs) as -> by congruence.
  rewrite (LHSs_surplus_coefficients F logs equations), Heq.
  symmetry. apply LHSs_surplus_coefficients.
Qed.

(** Coefficient vectors of lengths 1, 0 and 5 for one tetrahedron: the
    verifier certifies, as it does with the surplus cut off. *)
Lemma coefficient_vector_length_not_validated_witness :
  verify Examples.CIF53 Examples.ragged [Examples.shape_i] true =
  verify Examples.CIF53 Examples.ragged_cut [Examples.shape_i] true /\
  verify Examples.CIF53 Examples.ragged [Examples.shape_i] true =
  ([], Returned true).
Proof.
  destruct (coefficient_vector_length_not_validated
              Examples.CIF53 Examples.ragged_cut [Examples.shape_i] true
              Examples.shape_i_logs [])
    as (_ & _ & _ & H).
  split.
  - apply (H shape_i_logs_computed (gluing_equations Examples.ragged)).
    reflexivity.
  - rewrite run_on_shape_i. vm_compute. reflexivity.
Defined.

(** C7, as the code has it.  The number of equations is not validated.
    For a non-empty, positively oriented shape list whose logarithms are
    computed: if the equation list is at least as long as the expected
    count, the equations beyond it are never checked and the verifier
    returns the ordinary boolean that it returns on the expected-count
    prefix; if it is shorter and every supplied equation passes its
    check, the verifier raises [IndexError]; and whenever some check
    fails after all earlier ones passed, it returns the ordinary
    [False]. *)
Theorem equation_count_not_validated
        (F : IntervalField) (manifold : Manifold)
        (shape_intervals : list (CI F)) (verbose : bool) (logs : list (CI F)) :
  positively_oriented F shape_intervals ->
  shape_intervals <> [] ->
  compute_logs F shape_intervals = Returned logs ->
  let equations := gluing_equations manifold in
  let LHSs := map (LHS_of F logs) equations in
  let targets := expected_targets F manifold in
  let r := outcome (verify F manifold shape_intervals verbose) in
  (expected_equation_count manifold <= List.length equations ->
   (exists b, r = Returned b) /\
   r = outcome (verify F (with_equations manifold
                            (firstn (expected_equation_count manifold)
                                    equations))
                       shape_intervals verbose))
  /\
  (List.length equations < expected_equation_count manifold ->
   (forall i, i < List.length equations -> check_passes F targets LHSs i) ->
   r = Raised IndexError)
  /\
  (forall i, check_fails F targets LHSs i ->
             (forall j, j < i -> check_passes F targets LHSs j) ->
             r = Returned false).
Proof.
  intros Hpos Hne Hlogs equations LHSs targets r.
  assert (Hr : r = check_all F targets LHSs).
  { unfold r. rewrite verify_outcome.
    apply (verify_spec_checks F manifold _ logs Hpos Hne Hlogs). }
  assert (Hlen : List.length targets = expected_equation_count manifold)
    by apply expected_targets_length.
  assert (HL : List.length LHSs = List.length equations)
    by apply length_map.
  split; [ | split ].
  - intros Hlong. split.
    + rewrite Hr. apply check_all_returns. lia.
    + rewrite verify_outcome,
        (verify_spec_checks F _ _ logs Hpos Hne Hlogs).
      simpl gluing_equations. rewrite <- firstn_map, <- Hlen, Hr.
      apply check_all_firstn.
  - intros Hshort Hpass. rewrite Hr. apply check_all_raised.
    rewrite HL. repeat split; [ lia | exact Hpass ].
  - intros i Hfail Hpass. rewrite Hr. apply check_all_false.
    exists i. split; assumption.
Qed.

(** The figure-eight knot complement without its longitude equation:
    the three equations that are there pass, the fourth is missing. *)
Lemma equation_count_not_validated_witness :
  outcome (verify Examples.CIF53 Examples.m004_short Examples.m004_shapes false)
  = Raised IndexError.
Proof.
  destruct (equation_count_not_validated
              Examples.CIF53 Examples.m004_short Examples.m004_shapes false
              Examples.m004_logs) as (_ & Hshort & _).
  - exact m004_oriented.
  - discriminate.
  - exact m004_logs_computed.
  - apply Hshort.
    + vm_compute. lia.
    + intros i Hi. change (i < 3) in Hi.
      destruct i as [ | [ | [ | i ] ] ];
        [ vm_compute; reflexivity .. | exfalso; lia ].
Defined.

(** C7, as stated, fails: with an equation list of the wrong length the
    verifier returns ordinary booleans.  With no equation at all (three
    are expected) and a shape below the real axis it returns [False];
    with five equations for the figure-eight knot complement (four are
    expected) it returns [True]. *)
Lemma equation_count_mismatch_returns_boolean :
  (List.length (gluing_equations (Examples.one_tetrahedron true [])) <>
   expected_equation_count (Examples.one_tetrahedron true []) /\
   verify Examples.CIF53 (Examples.one_tetrahedron true [])
          [Examples.shape_below] false = ([], Returned false))
  /\
  (List.length (gluing_equations Examples.m004_surplus) <>
   expected_equation_count Examples.m004_surplus /\
   verify Examples.CIF53 Examples.m004_surplus Examples.m004_shapes false
   = ([], Returned true)).
Proof.
  split; split.
  - vm_compute. lia.
  - vm_compute. reflexivity.
  - vm_compute. lia.
  - rewrite run_on_m004_shapes. vm_compute. reflexivity.
Qed.

(** C6. [verify_hyperbolicity] returns [(False, [])] when the solver
    raises and when the logarithmic verifier returns [False], and
    [(True, shapes)] with the solver's own shape list when the verifier
    returns [True]; whenever it returns, the shape list is non-empty
    exactly when the flag is [True], and it is then the solver's list. *)
Theorem verify_hyperbolicity_result
        (ComplexIntervalField : nat -> IntervalField)
        (tetrahedra_shapes :
           forall bits_prec : nat,
             Manifold -> result (list (CI (ComplexIntervalField bits_prec))))
        (manifold : Manifold) (verbose : bool) (bits_prec : nat) :
  let r := outcome (verify_hyperbolicity ComplexIntervalField tetrahedra_shapes
                                         manifold verbose bits_prec) in
  let verified shapes :=
    outcome (verify (ComplexIntervalField bits_prec) manifold shapes verbose) in
  (forall e, tetrahedra_shapes bits_prec manifold = Raised e ->
             r = Returned (false, []))
  /\
  (forall shapes, tetrahedra_shapes bits_prec manifold = Returned shapes ->
                  verified shapes = Returned false ->
                  r = Returned (false, []))
  /\
  (forall shapes, tetrahedra_shapes bits_prec manifold = Returned shapes ->
                  verified shapes = Returned true ->
                  r = Returned (true, shapes))
  /\
  (forall certified shapes,
      r = Returned (certified, shapes) ->
      (shapes <> [] <-> certified = true) /\
      (certified = true ->
       tetrahedra_shapes bits_prec manifold = Returned shapes)).
Proof.
  intros r verified. unfold r, verified.
  rewrite verify_hyperbolicity_outcome.
  split; [ | split; [ | split ] ].
  - intros e He. rewrite He. reflexivity.
  - intros shapes Hs. rewrite verify_outcome, Hs. intros ->. reflexivity.
  - intros shapes Hs. rewrite verify_outcome, Hs. intros ->. reflexivity.
  - intros certified shapes H.
    assert (Hfalse : forall A (l : list A) (P : Prop),
               (([] : list A) <> [] <-> false = true) /\ (false = true -> P)).
    { intros A l P. split; [ split; [ congruence | discriminate ]
                           | discriminate ]. }
    destruct (tetrahedra_shapes bits_prec manifold) as [ s | e ].
    + destruct (verify_spec _ manifold s) as [ [ | ] | ] eqn:Hv;
        inversion H; subst.
      * split; [ | reflexivity ].
        split; [ reflexivity | intros _ ].
        destruct shapes; [ cbv in Hv; discriminate Hv | discriminate ].
      * apply (Hfalse _ []).
    + inversion H; subst. apply (Hfalse _ []).
Qed.

(** The figure-eight knot complement is certified with its two shapes. *)
Lemma verify_hyperbolicity_result_witness :
  outcome (verify_hyperbolicity Reference.field Examples.solver
                                Examples.m004 false Examples.bits)
  = Returned (true, Examples.m004_shapes).
Proof.
  destruct (verify_hyperbolicity_result
              Reference.field Examples.solver Examples.m004 false
              Examples.bits) as (_ & _ & Htrue & _).
  apply Htrue.
  - reflexivity.
  - exact (f_equal snd m004_run).
Defined.

(** C8. The value returned does not depend on [verbose], for either
    function, and it is determined by the inputs: the shape intervals,
    the precision, and the data of the manifold (its two counts, its
    equations, and the completeness of the cusps it has).  Two calls on
    the same inputs end alike. *)
Theorem verbose_never_alters_the_result
        (F : IntervalField) (manifold manifold' : Manifold)
        (shape_intervals : list (CI F))
        (ComplexIntervalField : nat -> IntervalField)
        (tetrahedra_shapes :
           forall bits_prec : nat,
             Manifold -> result (list (CI (ComplexIntervalField bits_prec))))
        (bits_prec : nat) (verbose verbose' : bool) :
  outcome (verify F manifold shape_intervals verbose) =
  outcome (verify F manifold shape_intervals verbose')
  /\
  outcome (verify_hyperbolicity ComplexIntervalField tetrahedra_shapes
                                manifold verbose bits_prec) =
  outcome (verify_hyperbolicity ComplexIntervalField tetrahedra_shapes
                                manifold verbose' bits_prec)
  /\
  (num_tetrahedra manifold = num_tetrahedra manifold' ->
   num_cusps manifold = num_cusps manifold' ->
   (forall i, i < num_cusps manifold ->
              cusp_info manifold i = cusp_info manifold' i) ->
   gluing_equations manifold = gluing_equations manifold' ->
   outcome (verify F manifold shape_intervals verbose) =
   outcome (verify F manifold' shape_intervals verbose')).
Proof.
  split; [ | split ].
  - rewrite !verify_outcome. reflexivity.
  - rewrite !verify_hyperbolicity_outcome. reflexivity.
  - intros Htet Hcusps Hinfo Heqs. rewrite !verify_outcome.
    apply verify_spec_same_data; assumption.
Qed.

(** Two descriptions of the figure-eight knot complement, one call
    verbose and one not. *)
Lemma verbose_never_alters_the_result_witness :
  outcome (verify Examples.CIF53 Examples.m004 Examples.m004_shapes true) =
  outcome (verify Examples.CIF53 Examples.m004_again Examples.m004_shapes false).
Proof.
  destruct (verbose_never_alters_the_result
              Examples.CIF53 Examples.m004 Examples.m004_again
              Examples.m004_shapes Reference.field Examples.solver
              Examples.bits true false) as (_ & _ & Hsame).
  apply Hsame.
  - reflexivity.
  - reflexivity.
  - intros i Hi. change (i < 1) in Hi.
    destruct i as [ | i ]; [ reflexivity | exfalso; lia ].
  - reflexivity.
Defined.

(** The completion flag decides the target: the certified one-tetrahedron
    input fails once its cusp is declared filled, at the first cusp
    equation, which is [0] and not [2 pi i]. *)
Example swapped_completion_flag_fails :
  verify Examples.CIF53 Examples.synthetic [Examples.shape_i] true =
  ([], Returned true) /\
  verify Examples.CIF53
         (Examples.one_tetrahedron false (gluing_equations Examples.synthetic))
         [Examples.shape_i] true =
  (["Equation 0 for cusp 0 failed"], Returned false).
Proof.
  split; rewrite run_on_shape_i; vm_compute; reflexivity.
Qed.


(** * Further properties of the two functions *)

(** ** The run, check by check *)

Section Run.

Variable F : IntervalField.

Local Abbreviation CI := (CI F).

Lemma check_labelled_outcome verbose (labels : list (CI * string)) LHSs :
  outcome (check_labelled F verbose labels LHSs) =
  check_all F (map fst labels) LHSs.
Proof.
  revert LHSs; induction labels as [ | [value line] labels IH ]; intros LHSs;
    simpl; [ reflexivity | ].
  destruct LHSs as [ | lhs LHSs ]; [ reflexivity | ].
  destruct (within_tolerance F lhs value); [ apply IH | reflexivity ].
Qed.

(** Only a failed check prints, and it prints its own line. *)
Lemma check_labelled_output verbose (labels : list (CI * string)) LHSs :
  match outcome (check_labelled F verbose labels LHSs) with
  | Returned false =>
      exists p value line,
        nth_error labels p = Some (value, line) /\
        check_fails F (map fst labels) LHSs p /\
        (forall q, q < p -> check_passes F (map fst labels) LHSs q) /\
        output (check_labelled F verbose labels LHSs) = said verbose line
  | _ => output (check_labelled F verbose labels LHSs) = []
  end.
Proof.
  revert LHSs; induction labels as [ | [value line] labels IH ]; intros LHSs;
    simpl; [ reflexivity | ].
  destruct LHSs as [ | lhs LHSs ]; [ reflexivity | ].
  destruct (within_tolerance F lhs value) eqn:Hw.
  - specialize (IH LHSs).
    destruct (outcome (check_labelled F verbose labels LHSs))
      as [ [ | ] | ]; try exact IH.
    destruct IH as (p & v & l & Hp & Hf & Hq & Hout).
    exists (S p), v, l. repeat split; try assumption.
    intros [ | q ] Hlt; [ exact Hw | apply Hq; lia ].
  - exists 0, value, line. repeat split; try assumption.
    intros q Hq; lia.
Qed.

Lemma check_labelled_true_quiet verbose (labels : list (CI * string)) LHSs out :
  check_labelled F verbose labels LHSs = (out, Returned true) -> out = [].
Proof.
  intros H. pose proof (check_labelled_output verbose labels LHSs) as Ho.
  rewrite H in Ho. exact Ho.
Qed.

(** The first check to fail decides the run. *)
Lemma check_labelled_first_failure verbose (labels : list (CI * string)) :
  forall LHSs p value line,
    nth_error labels p = Some (value, line) ->
    (forall q, q < p -> check_passes F (map fst labels) LHSs q) ->
    check_fails F (map fst labels) LHSs p ->
    check_labelled F verbose labels LHSs = (said verbose line, Returned false).
Proof.
  induction labels as [ | [v0 l0] labels IH ]; intros LHSs p value line Hp Hq Hf.
  - destruct p; discriminate.
  - simpl. destruct LHSs as [ | lhs LHSs ].
    + unfold check_fails in Hf. simpl in Hf.
      destruct p; simpl in Hf; [ contradiction | ].
      destruct (nth_error (map fst labels) p); contradiction.
    + destruct p as [ | p ].
      * injection Hp as -> ->. unfold check_fails in Hf. simpl in Hf.
        rewrite Hf. reflexivity.
      * assert (H0 := Hq 0 ltac:(lia)). unfold check_passes in H0.
        simpl in H0. rewrite H0.
        apply (IH LHSs p value line Hp).
        -- intros q Hlt. apply (Hq (S q)). lia.
        -- exact Hf.
Qed.

Lemma check_labelled_app verbose (l1 l2 : list (CI * string)) LHSs :
  check_labelled F verbose (l1 ++ l2) LHSs =
  match outcome (check_labelled F verbose l1 LHSs) with
  | Returned true => check_labelled F verbose l2 (skipn (List.length l1) LHSs)
  | _ => check_labelled F verbose l1 LHSs
  end.
Proof.
  revert LHSs; induction l1 as [ | [value line] l1 IH ]; intros LHSs; simpl;
    [ reflexivity | ].
  destruct LHSs as [ | lhs LHSs ]; [ reflexivity | ].
  destruct (within_tolerance F lhs value); [ apply IH | reflexivity ].
Qed.

Lemma edge_loop_run verbose (LHSs : list CI) todo :
  forall edge_index i,
    edge_loop F verbose LHSs todo edge_index i =
    hand_on (i + todo)
            (check_labelled F verbose (edge_labels_from F edge_index todo)
                            (skipn i LHSs)).
Proof.
  induction todo as [ | todo IH ]; intros edge_index i; simpl.
  - rewrite Nat.add_0_r. reflexivity.
  - rewrite (skipn_nth_error LHSs i). unfold getitem.
    destruct (nth_error LHSs i) as [ lhs | ]; [ | reflexivity ].
    rewrite bind_ret_l.
    destruct (within_tolerance F lhs (TWO_PI_I F)); simpl.
    + rewrite IH, Nat.add_succ_r. reflexivity.
    + apply print_if_then_return.
Qed.

Lemma cusp_equation_loop_run verbose (LHSs : list CI) value cusp_index todo :
  forall j i,
    cusp_equation_loop F verbose LHSs value cusp_index todo j i =
    hand_on (i + todo)
            (check_labelled F verbose
                            (cusp_labels_from F value cusp_index j todo)
                            (skipn i LHSs)).
Proof.
  induction todo as [ | todo IH ]; intros j i; simpl.
  - rewrite Nat.add_0_r. reflexivity.
  - rewrite (skipn_nth_error LHSs i). unfold getitem.
    destruct (nth_error LHSs i) as [ lhs | ]; [ | reflexivity ].
    rewrite bind_ret_l.
    destruct (within_tolerance F lhs value); simpl.
    + rewrite IH, Nat.add_succ_r. reflexivity.
    + apply print_if_then_return.
Qed.

Lemma cusp_labels_length manifold c :
  List.length (cusp_labels F manifold c) =
  if complete (cusp_info manifold c) then 2 else 1.
Proof.
  unfold cusp_labels, cusp_labels_from, cusp_equations.
  rewrite length_map, length_seq.
  destruct (complete (cusp_info manifold c)); reflexivity.
Qed.

Lemma cusp_loop_run verbose manifold (LHSs : list CI) todo :
  forall cusp_index i,
    cusp_loop F verbose manifold LHSs todo cusp_index i =
    hand_on (i + List.length (flat_map (cusp_labels F manifold)
                                       (seq cusp_index todo)))
            (check_labelled F verbose
                            (flat_map (cusp_labels F manifold)
                                      (seq cusp_index todo))
                            (skipn i LHSs)).
Proof.
  induction todo as [ | todo IH ]; intros cusp_index i.
  - simpl. rewrite Nat.add_0_r. reflexivity.
  - cbn [seq flat_map cusp_loop].
    destruct (cusp_equations F (cusp_info manifold cusp_index))
      as [n value] eqn:Hce.
    assert (Hlab : cusp_labels F manifold cusp_index =
                   cusp_labels_from F value cusp_index 0 n)
      by (unfold cusp_labels; rewrite Hce; reflexivity).
    assert (Hlen : List.length (cusp_labels_from F value cusp_index 0 n) = n)
      by (unfold cusp_labels_from; rewrite length_map, length_seq;
          reflexivity).
    rewrite check_labelled_app, length_app, Hlab, Hlen.
    rewrite cusp_equation_loop_run.
    destruct (check_labelled F verbose
                (cusp_labels_from F value cusp_index 0 n) (skipn i LHSs))
      as [out [ [ | ] | e ]] eqn:HX; cbn [outcome snd hand_on].
    + apply check_labelled_true_quiet in HX. subst out.
      change ([], Returned (Continue (i + n))) with (ret (Continue (i + n))).
      rewrite bind_ret_l, IH, skipn_skipn, Nat.add_assoc, (Nat.add_comm n i).
      reflexivity.
    + rewrite bind_returned. simpl. rewrite app_nil_r. reflexivity.
    + reflexivity.
Qed.

(** The run of the verifier is the pass over the labelled checks. *)
Lemma verify_is_verify_run manifold (shapes : list CI) verbose :
  verify_logarithmic_gluing_equations_and_positively_oriented_tets
    F manifold shapes verbose = verify_run F manifold shapes verbose.
Proof.
  unfold verify_logarithmic_gluing_equations_and_positively_oriented_tets,
    verify_run.
  destruct (forallb (positive_imag F) shapes) eqn:Hpos; cbn [negb].
  - apply positively_oriented_forallb in Hpos.
    rewrite (orientation_loop_pass F verbose _ Hpos), bind_ret_l.
    destruct (compute_logs F shapes) as [ logs | e ]; [ | reflexivity ].
    change (lift (Returned logs)) with (ret logs). rewrite bind_ret_l.
    destruct shapes as [ | z0 shapes ]; [ reflexivity | ].
    change (getitem (z0 :: shapes) 0) with (ret z0). rewrite bind_ret_l.
    set (LHSs := map (LHS_of F logs) (gluing_equations manifold)).
    unfold labelled_targets.
    rewrite edge_loop_run, check_labelled_app. cbn [skipn].
    destruct (check_labelled F verbose
                (edge_labels_from F 0 (num_tetrahedra manifold)) LHSs)
      as [out [ [ | ] | e ]] eqn:HX; cbn [outcome snd hand_on].
    + apply check_labelled_true_quiet in HX. subst out.
      change ([], Returned (Continue (0 + num_tetrahedra manifold)))
        with (ret (Continue (0 + num_tetrahedra manifold))).
      rewrite bind_ret_l, cusp_loop_run.
      unfold edge_labels_from. rewrite length_map, length_seq. cbn [Nat.add].
      destruct (check_labelled F verbose _ (skipn _ LHSs))
        as [out [ [ | ] | e ]] eqn:HY; cbn [hand_on].
      * apply check_labelled_true_quiet in HY. subst out. reflexivity.
      * rewrite bind_returned. simpl. rewrite app_nil_r. reflexivity.
      * reflexivity.
    + rewrite bind_returned. simpl. rewrite app_nil_r. reflexivity.
    + reflexivity.
  - apply not_oriented_forallb in Hpos.
    rewrite (orientation_loop_fail F verbose _ Hpos), bind_returned. simpl.
    rewrite app_nil_r. reflexivity.
Qed.

End Run.

Section RunFacts.

Variable F : IntervalField.

Local Abbreviation CI := (CI F).

Lemma map_const_seq {A} (c : A) n : forall a,
  map (fun _ => c) (seq a n) = repeat c n.
Proof.
  induction n as [ | n IH ]; intros a; simpl; [ reflexivity | ].
  rewrite IH. reflexivity.
Qed.

Lemma cusp_labels_fst manifold c :
  map fst (cusp_labels F manifold c) = cusp_targets F (cusp_info manifold c).
Proof.
  unfold cusp_labels, cusp_labels_from, cusp_targets, cusp_equations.
  destruct (complete (cusp_info manifold c)); reflexivity.
Qed.

Lemma labelled_targets_fst manifold :
  map fst (labelled_targets F manifold) = expected_targets F manifold.
Proof.
  unfold labelled_targets, expected_targets, edge_targets, all_cusp_targets,
    edge_labels_from.
  rewrite map_app, map_map. cbn [fst]. rewrite map_const_seq. f_equal.
  rewrite !flat_map_concat_map, concat_map, map_map. f_equal.
  apply map_ext. intros c. apply cusp_labels_fst.
Qed.

Lemma cusp_offset_length manifold c :
  List.length (flat_map (cusp_labels F manifold) (seq 0 c)) =
  cusp_offset manifold c.
Proof.
  rewrite length_flat_map. unfold cusp_offset. f_equal.
  apply map_ext. intros i. apply cusp_labels_length.
Qed.

(** Where the check of equation [j] of cusp [c] stands. *)
Lemma labelled_target_cusp manifold c j :
  c < num_cusps manifold ->
  j < (if complete (cusp_info manifold c) then 2 else 1) ->
  nth_error (labelled_targets F manifold)
            (num_tetrahedra manifold + cusp_offset manifold c + j) =
  Some (snd (cusp_equations F (cusp_info manifold c)), cusp_line j c).
Proof.
  intros Hc Hj. unfold labelled_targets.
  assert (He : List.length (edge_labels_from F 0 (num_tetrahedra manifold)) =
               num_tetrahedra manifold)
    by (unfold edge_labels_from; rewrite length_map, length_seq; reflexivity).
  rewrite nth_error_app2 by lia. rewrite He.
  replace (num_tetrahedra manifold + cusp_offset manifold c + j -
           num_tetrahedra manifold) with (cusp_offset manifold c + j) by lia.
  replace (num_cusps manifold) with (c + S (num_cusps manifold - S c)) by lia.
  rewrite seq_app, flat_map_app. cbn [Nat.add seq flat_map].
  rewrite nth_error_app2 by (rewrite cusp_offset_length; lia).
  rewrite cusp_offset_length.
  replace (cusp_offset manifold c + j - cusp_offset manifold c) with j by lia.
  rewrite nth_error_app1 by (rewrite cusp_labels_length; exact Hj).
  unfold cusp_labels, cusp_labels_from.
  rewrite nth_error_map, nth_error_seq.
  replace (Nat.ltb j (fst (cusp_equations F (cusp_info manifold c))))
    with true; [ reflexivity | ].
  symmetry. apply Nat.ltb_lt. unfold cusp_equations.
  destruct (complete (cusp_info manifold c)); exact Hj.
Qed.

Lemma verify_run_checks manifold (shapes : list CI) logs verbose :
  positively_oriented F shapes ->
  shapes <> [] ->
  compute_logs F shapes = Returned logs ->
  verify_logarithmic_gluing_equations_and_positively_oriented_tets
    F manifold shapes verbose =
  check_labelled F verbose (labelled_targets F manifold)
                 (map (LHS_of F logs) (gluing_equations manifold)).
Proof.
  intros Hpos Hne Hlogs. rewrite verify_is_verify_run. unfold verify_run.
  apply positively_oriented_forallb in Hpos. rewrite Hpos, Hlogs. cbn [negb].
  destruct shapes; [ contradiction | reflexivity ].
Qed.

(** The verifier prints one line when it returns [False] and is
    verbose, and nothing otherwise. *)
Lemma verify_lines manifold (shapes : list CI) verbose :
  List.length
    (output (verify_logarithmic_gluing_equations_and_positively_oriented_tets
               F manifold shapes verbose)) =
  if verbose &&
     is_false (outcome
                 (verify_logarithmic_gluing_equations_and_positively_oriented_tets
                    F manifold shapes verbose))
  then 1 else 0.
Proof.
  rewrite verify_is_verify_run. unfold verify_run.
  destruct (forallb (positive_imag F) shapes); cbn [negb];
    [ | destruct verbose; reflexivity ].
  destruct (compute_logs F shapes) as [ logs | e ];
    [ | destruct verbose; reflexivity ].
  destruct shapes as [ | z0 shapes ]; [ destruct verbose; reflexivity | ].
  pose proof (check_labelled_output F verbose (labelled_targets F manifold)
                (map (LHS_of F logs) (gluing_equations manifold))) as H.
  destruct (outcome (check_labelled F verbose _ _)) as [ [ | ] | e ].
  - rewrite H. destruct verbose; reflexivity.
  - destruct H as (p & value & line & _ & _ & _ & ->).
    destruct verbose; reflexivity.
  - rewrite H. destruct verbose; reflexivity.
Qed.

End RunFacts.

(** ** Further properties *)

(** X1. The verifier prints exactly one line when it is verbose and
    returns [False], and nothing in every other case: nothing when it is
    not verbose, nothing when it returns [True], nothing when it raises. *)
Theorem verifier_prints_one_line_iff_false
        (F : IntervalField) (manifold : Manifold)
        (shape_intervals : list (CI F)) (verbose : bool) :
  List.length (output (verify F manifold shape_intervals verbose)) =
  if verbose && is_false (outcome (verify F manifold shape_intervals verbose))
  then 1 else 0.
Proof. apply verify_lines. Qed.

(** X2. [verify_hyperbolicity] prints exactly one line when it is verbose
    and returns [(False, [])] (the solver's failure or the verifier's
    failed check), and nothing in every other case. *)
Theorem verify_hyperbolicity_prints_one_line_iff_false
        (ComplexIntervalField : nat -> IntervalField)
        (tetrahedra_shapes :
           forall bits_prec : nat,
             Manifold -> result (list (CI (ComplexIntervalField bits_prec))))
        (manifold : Manifold) (verbose : bool) (bits_prec : nat) :
  let run := verify_hyperbolicity ComplexIntervalField tetrahedra_shapes
                                  manifold verbose bits_prec in
  List.length (output run) =
  if verbose && match outcome run with
                | Returned (false, _) => true
                | _ => false
                end
  then 1 else 0.
Proof.
  intros run. unfold run, verify_hyperbolicity.
  destruct (tetrahedra_shapes bits_prec manifold) as [ shapes | e ].
  - pose proof (verify_lines (ComplexIntervalField bits_prec) manifold shapes
                             verbose) as H.
    destruct (verify_logarithmic_gluing_equations_and_positively_oriented_tets
                (ComplexIntervalField bits_prec) manifold shapes verbose)
      as [out [ [ | ] | e ]]; cbn [output outcome fst snd is_false] in H.
    + rewrite bind_returned. cbn [negb output outcome ret fst snd].
      rewrite app_nil_r. exact H.
    + rewrite bind_returned. cbn [negb output outcome ret fst snd].
      rewrite app_nil_r. exact H.
    + exact H.
  - rewrite print_if_then_return. destruct verbose; reflexivity.
Qed.

(** X3. When the first check to fail is equation [j] of cusp [c] (all
    edge equations and all equations of earlier cusps being within
    tolerance), the verifier returns [False] and the line it prints names
    cusp [c] and equation [j]. *)
Theorem cusp_failure_names_cusp_and_equation
        (F : IntervalField) (manifold : Manifold)
        (shape_intervals : list (CI F)) (verbose : bool) (logs : list (CI F))
        (c j : nat) :
  positively_oriented F shape_intervals ->
  shape_intervals <> [] ->
  compute_logs F shape_intervals = Returned logs ->
  let LHSs := map (LHS_of F logs) (gluing_equations manifold) in
  let targets := expected_targets F manifold in
  let p := num_tetrahedra manifold + cusp_offset manifold c + j in
  c < num_cusps manifold ->
  j < (if complete (cusp_info manifold c) then 2 else 1) ->
  (forall q, q < p -> check_passes F targets LHSs q) ->
  check_fails F targets LHSs p ->
  verify F manifold shape_intervals verbose =
  (said verbose ("Equation " ++ fmt_d j ++ " for cusp " ++ fmt_d c
                 ++ " failed"),
   Returned false).
Proof.
  intros Hpos Hne Hlogs LHSs targets p Hc Hj Hpass Hfail.
  rewrite (verify_run_checks F manifold _ logs verbose Hpos Hne Hlogs).
  apply (check_labelled_first_failure F verbose _ _ p
           (snd (cusp_equations F (cusp_info manifold c))) (cusp_line j c)).
  - apply labelled_target_cusp; assumption.
  - rewrite labelled_targets_fst. exact Hpass.
  - rewrite labelled_targets_fst. exact Hfail.
Qed.

(** The longitude of a one-tetrahedron input is out of tolerance. *)
Lemma cusp_failure_names_cusp_and_equation_witness :
  verify Examples.CIF53 Examples.bad_longitude [Examples.shape_i] true =
  (["Equation 1 for cusp 0 failed"], Returned false).
Proof.
  apply (cusp_failure_names_cusp_and_equation
           Examples.CIF53 Examples.bad_longitude [Examples.shape_i] true
           Examples.shape_i_logs 0 1).
  - exact shape_i_oriented.
  - discriminate.
  - exact shape_i_logs_computed.
  - vm_compute. lia.
  - vm_compute. lia.
  - intros q Hq. change (q < 2) in Hq.
    destruct q as [ | [ | q ] ]; [ vm_compute; reflexivity .. | exfalso; lia ].
  - vm_compute. reflexivity.
Defined.

Section MoreFacts.

Variable F : IntervalField.

Local Abbreviation CI := (CI F).

Lemma log_each_raised f (shapes : list CI) e :
  log_each F f shapes = Raised e ->
  Exists (fun z => log F (f z) = Raised e) shapes.
Proof.
  induction shapes as [ | z shapes IH ]; simpl; [ discriminate | ].
  destruct (log F (f z)) as [ l | e' ] eqn:Hz.
  - destruct (log_each F f shapes) as [ ls | e' ]; [ discriminate | ].
    intros H. apply Exists_cons_tl, IH. exact H.
  - intros H. apply Exists_cons_hd. congruence.
Qed.

Lemma compute_logs_raised (shapes : list CI) e :
  compute_logs F shapes = Raised e -> Exists (log_raises F e) shapes.
Proof.
  unfold compute_logs, log_raises.
  destruct (log_each F (shape_z F) shapes) eqn:H1.
  - destruct (log_each F (shape_zp F) shapes) eqn:H2.
    + destruct (log_each F (shape_zpp F) shapes) eqn:H3; [ discriminate | ].
      intros H. injection H as ->. apply log_each_raised in H3.
      revert H3. apply Exists_impl. auto.
    + intros H. injection H as ->. apply log_each_raised in H2.
      revert H2. apply Exists_impl. auto.
  - intros H. injection H as ->. apply log_each_raised in H1.
    revert H1. apply Exists_impl. unfold shape_z. auto.
Qed.

Lemma compute_logs_returned (shapes logs : list CI) :
  compute_logs F shapes = Returned logs ->
  Forall (fun z => forall e, ~ log_raises F e z) shapes.
Proof.
  intros H. apply compute_logs_interleaved in H.
  induction H as [ | z shapes l lp lpp logs H1 H2 H3 _ IH ];
    constructor; [ | exact IH ].
  unfold log_raises, shape_zp, shape_zpp.
  intros e [ H | [ H | H ] ]; congruence.
Qed.

Lemma compute_logs_app (s1 s2 l1 l2 : list CI) :
  compute_logs F s1 = Returned l1 ->
  compute_logs F s2 = Returned l2 ->
  compute_logs F (s1 ++ s2) = Returned (l1 ++ l2).
Proof.
  rewrite !compute_logs_interleaved. intros H1 H2.
  induction H1; simpl; [ exact H2 | constructor; assumption ].
Qed.

Lemma LHS_of_more_logs (logs logs' : list CI) equation :
  List.length equation <= List.length logs ->
  LHS_of F (logs ++ logs') equation = LHS_of F logs equation.
Proof.
  intros Hlen.
  rewrite (LHS_of_surplus_logs F (logs ++ logs')),
    (LHS_of_surplus_logs F logs), firstn_app.
  replace (List.length equation - List.length logs) with 0 by lia.
  rewrite firstn_O, app_nil_r. reflexivity.
Qed.

Lemma check_all_exact (targets L1 L2 : list CI) :
  List.length targets = List.length L1 ->
  check_all F targets (L1 ++ L2) = check_all F targets L1.
Proof.
  intros Hlen.
  rewrite (check_all_firstn F targets (L1 ++ L2)), firstn_app, Hlen.
  rewrite firstn_all, Nat.sub_diag, firstn_O, app_nil_r. reflexivity.
Qed.

Lemma expected_targets_add_cusp manifold info equations :
  expected_targets F (add_cusp manifold info equations) =
  expected_targets F manifold ++ cusp_targets F info.
Proof.
  unfold expected_targets, edge_targets, all_cusp_targets.
  cbn [add_cusp num_tetrahedra num_cusps cusp_info].
  rewrite seq_S, flat_map_app, app_assoc. cbn [Nat.add flat_map].
  rewrite Nat.eqb_refl, app_nil_r. f_equal. f_equal.
  rewrite !flat_map_concat_map. f_equal.
  apply map_ext_in. intros i Hi. apply in_seq in Hi.
  replace (Nat.eqb i (num_cusps manifold)) with false; [ reflexivity | ].
  symmetry. apply Nat.eqb_neq. lia.
Qed.

(** When the verifier returns [True]. *)
Lemma verify_spec_true manifold (shapes : list CI) :
  verify_spec F manifold shapes = Returned true <->
  positively_oriented F shapes /\
  shapes <> [] /\
  exists logs,
    compute_logs F shapes = Returned logs /\
    forall i, i < expected_equation_count manifold ->
              check_passes F (expected_targets F manifold)
                           (map (LHS_of F logs) (gluing_equations manifold)) i.
Proof.
  unfold verify_spec. rewrite positively_oriented_forallb.
  rewrite <- (expected_targets_length F manifold).
  destruct (forallb (positive_imag F) shapes); cbn [negb].
  - destruct (compute_logs F shapes) as [ logs | e ].
    + destruct shapes as [ | z0 shapes ].
      * split; [ discriminate | intros (_ & H & _); contradiction ].
      * rewrite check_all_true. split.
        -- intros H. repeat split; [ discriminate | ].
           exists logs. split; [ reflexivity | exact H ].
        -- intros (_ & _ & logs' & Hl & H). injection Hl as <-. exact H.
    + split; [ discriminate | ].
      intros (_ & _ & logs & Hl & _). discriminate.
  - split; [ discriminate | intros (H & _); discriminate ].
Qed.

End MoreFacts.

(** X4. The verifier raises exactly in these cases, all of them past the
    orientation check: a logarithm raises (that exception comes out), or
    the shape list is empty, or the equation list is shorter than the
    expected count and every equation it holds passes its check (the last
    two give [IndexError]). *)
Theorem verifier_raises_iff
        (F : IntervalField) (manifold : Manifold)
        (shape_intervals : list (CI F)) (verbose : bool) (e : exn) :
  outcome (verify F manifold shape_intervals verbose) = Raised e <->
  positively_oriented F shape_intervals /\
  (compute_logs F shape_intervals = Raised e \/
   exists logs,
     compute_logs F shape_intervals = Returned logs /\
     e = IndexError /\
     (shape_intervals = [] \/
      (List.length (gluing_equations manifold) <
       expected_equation_count manifold /\
       forall i, i < List.length (gluing_equations manifold) ->
                 check_passes F (expected_targets F manifold)
                              (map (LHS_of F logs) (gluing_equations manifold))
                              i))).
Proof.
  rewrite verify_outcome. unfold verify_spec.
  rewrite positively_oriented_forallb.
  destruct (forallb (positive_imag F) shape_intervals); cbn [negb].
  - destruct (compute_logs F shape_intervals) as [ logs | e0 ].
    + destruct shape_intervals as [ | z0 shapes ].
      * split.
        -- intros H. injection H as <-. split; [ reflexivity | right ].
           exists logs. repeat split. left. reflexivity.
        -- intros (_ & [ H | (logs' & _ & -> & _) ]);
             [ discriminate | reflexivity ].
      * rewrite check_all_raised, length_map, expected_targets_length.
        split.
        -- intros (-> & Hlen & Hpass). split; [ reflexivity | right ].
           exists logs. repeat split. right. split; assumption.
        -- intros (_ & [ H | (logs' & Hl & -> & [ H | [Hlen Hpass] ]) ]);
             try discriminate.
           injection Hl as <-. repeat split; assumption.
    + split.
      * intros H. injection H as <-. split; [ reflexivity | left; reflexivity ].
      * intros (_ & [ H | (logs & Hl & _) ]); [ congruence | discriminate ].
  - split; [ discriminate | intros (H & _); discriminate ].
Qed.

(** The figure-eight knot complement without its longitude equation. *)
Lemma verifier_raises_iff_witness :
  positively_oriented Examples.CIF53 Examples.m004_shapes /\
  (compute_logs Examples.CIF53 Examples.m004_shapes = Raised IndexError \/
   exists logs,
     compute_logs Examples.CIF53 Examples.m004_shapes = Returned logs /\
     IndexError = IndexError /\
     (Examples.m004_shapes = [] \/
      (List.length (gluing_equations Examples.m004_short) <
       expected_equation_count Examples.m004_short /\
       forall i, i < List.length (gluing_equations Examples.m004_short) ->
                 check_passes Examples.CIF53
                   (expected_targets Examples.CIF53 Examples.m004_short)
                   (map (LHS_of Examples.CIF53 logs)
                        (gluing_equations Examples.m004_short)) i))).
Proof.
  apply (proj1 (verifier_raises_iff Examples.CIF53 Examples.m004_short
                  Examples.m004_shapes false IndexError)).
  unfold outcome. rewrite run_on_m004_shapes. vm_compute. reflexivity.
Defined.

(** X5. On a positively oriented shape list, a logarithm that raises (of
    [z], of [1/(1-z)] or of [(z-1)/z], for some shape [z]) makes the
    verifier raise, whatever the manifold is; nothing is printed, and the
    exception is one raised by one of these logarithms. *)
Theorem log_failure_propagates
        (F : IntervalField) (manifold : Manifold)
        (shape_intervals : list (CI F)) (verbose : bool) :
  positively_oriented F shape_intervals ->
  Exists (fun z => exists e, log_raises F e z) shape_intervals ->
  exists e,
    verify F manifold shape_intervals verbose = ([], Raised e) /\
    Exists (log_raises F e) shape_intervals.
Proof.
  intros Hpos Hex.
  destruct (compute_logs F shape_intervals) as [ logs | e ] eqn:Hlogs.
  - exfalso. apply compute_logs_returned in Hlogs.
    rewrite Forall_forall in Hlogs. apply Exists_exists in Hex.
    destruct Hex as (z & Hz & e & He). exact (Hlogs z Hz e He).
  - exists e. split; [ | apply compute_logs_raised; exact Hlogs ].
    rewrite verify_is_verify_run. unfold verify_run.
    apply positively_oriented_forallb in Hpos. rewrite Hpos, Hlogs.
    reflexivity.
Qed.

(** A wide box above the real axis whose third logarithm raises. *)
Lemma log_failure_propagates_witness :
  exists e,
    verify Examples.CIF53 Examples.m004
           [Examples.shape_i; Examples.shape_wide] true = ([], Raised e) /\
    Exists (log_raises Examples.CIF53 e)
           [Examples.shape_i; Examples.shape_wide].
Proof.
  apply (log_failure_propagates Examples.CIF53 Examples.m004
           [Examples.shape_i; Examples.shape_wide] true).
  - repeat constructor.
  - apply Exists_cons_tl, Exists_cons_hd. exists ValueError.
    right. right. vm_compute. reflexivity.
Defined.

(** X6. [verify_hyperbolicity] catches the solver's exceptions only: an
    exception of the verifier comes out of it unchanged, with nothing
    printed.  In particular a solver that returns an empty shape list
    makes it raise [IndexError] instead of returning [(False, [])]. *)
Theorem verify_hyperbolicity_lets_verifier_errors_through
        (ComplexIntervalField : nat -> IntervalField)
        (tetrahedra_shapes :
           forall bits_prec : nat,
             Manifold -> result (list (CI (ComplexIntervalField bits_prec))))
        (manifold : Manifold) (verbose : bool) (bits_prec : nat) :
  let run := verify_hyperbolicity ComplexIntervalField tetrahedra_shapes
                                  manifold verbose bits_prec in
  (forall shapes e,
      tetrahedra_shapes bits_prec manifold = Returned shapes ->
      outcome (verify (ComplexIntervalField bits_prec) manifold shapes verbose)
      = Raised e ->
      run = ([], Raised e))
  /\
  (tetrahedra_shapes bits_prec manifold = Returned [] ->
   run = ([], Raised IndexError)).
Proof.
  intros run. unfold run, verify_hyperbolicity. split.
  - intros shapes e Hs Hv. rewrite Hs.
    pose proof (verify_lines (ComplexIntervalField bits_prec) manifold shapes
                             verbose) as H.
    destruct (verify_logarithmic_gluing_equations_and_positively_oriented_tets
                (ComplexIntervalField bits_prec) manifold shapes verbose)
      as [out r].
    cbn [outcome output fst snd] in *. subst r. cbn [is_false] in H.
    rewrite andb_false_r in H. destruct out; [ reflexivity | discriminate ].
  - intros Hs. rewrite Hs. reflexivity.
Qed.

(** A solver that returns no shape at all. *)
Lemma verify_hyperbolicity_lets_verifier_errors_through_witness :
  verify_hyperbolicity Reference.field (fun _ _ => Returned [])
                       Examples.m004 true Examples.bits
  = ([], Raised IndexError).
Proof.
  apply (verify_hyperbolicity_lets_verifier_errors_through
           Reference.field (fun _ _ => Returned [])
           Examples.m004 true Examples.bits).
  reflexivity.
Defined.

(** X7. Cusps are checked one after the other: for a manifold whose
    equation list has exactly the expected length, adding one cusp and
    its equations at the end leaves a failure or an exception as it was,
    and turns [True] into the checks of the new cusp alone (two
    equations against [0] if it is complete, one against [2 pi i] if it
    is filled). *)
Theorem cusps_are_checked_one_after_the_other
        (F : IntervalField) (manifold : Manifold)
        (shape_intervals : list (CI F)) (verbose : bool) (logs : list (CI F))
        (info : CuspInfo) (equations : list (list Z)) :
  positively_oriented F shape_intervals ->
  shape_intervals <> [] ->
  compute_logs F shape_intervals = Returned logs ->
  List.length (gluing_equations manifold) = expected_equation_count manifold ->
  outcome (verify F (add_cusp manifold info equations) shape_intervals verbose)
  = match outcome (verify F manifold shape_intervals verbose) with
    | Returned true =>
        check_all F (if complete info then [of_int F 0%Z; of_int F 0%Z]
                     else [TWO_PI_I F])
                  (map (LHS_of F logs) equations)
    | r => r
    end.
Proof.
  intros Hpos Hne Hlogs Hlen.
  rewrite !verify_outcome,
    !(verify_spec_checks F _ _ logs Hpos Hne Hlogs).
  rewrite expected_targets_add_cusp. cbn [add_cusp gluing_equations].
  rewrite map_app, check_all_app.
  assert (Hexact : List.length (expected_targets F manifold) =
                   List.length (map (LHS_of F logs) (gluing_equations manifold)))
    by (rewrite expected_targets_length, length_map; symmetry; exact Hlen).
  rewrite check_all_exact by exact Hexact.
  rewrite Hexact, skipn_app, skipn_all, Nat.sub_diag. reflexivity.
Qed.

(** A complete cusp added to one tetrahedron and its edge equation. *)
Lemma cusps_are_checked_one_after_the_other_witness :
  outcome (verify Examples.CIF53
             (add_cusp Examples.no_cusp_yet {| complete := true |}
                       [ [1; -1; -1]; [1; -1; -1] ]%Z)
             [Examples.shape_i] false)
  = Returned true.
Proof.
  rewrite (cusps_are_checked_one_after_the_other
             Examples.CIF53 Examples.no_cusp_yet [Examples.shape_i] false
             Examples.shape_i_logs).
  - unfold outcome. rewrite run_on_shape_i. vm_compute. reflexivity.
  - exact shape_i_oriented.
  - discriminate.
  - exact shape_i_logs_computed.
  - reflexivity.
Defined.

(** X8. The number of shapes is not compared with the number of
    tetrahedra or with the length of the coefficient vectors: shapes
    beyond the last coefficient of every equation take part in the
    orientation check and in the logarithms only.  If they are positively
    oriented and their logarithms are computed, the run is the same as
    without them. *)
Theorem shapes_beyond_the_coefficients_do_not_matter
        (F : IntervalField) (manifold : Manifold)
        (shape_intervals more_shapes : list (CI F)) (verbose : bool)
        (logs more_logs : list (CI F)) :
  positively_oriented F shape_intervals ->
  shape_intervals <> [] ->
  compute_logs F shape_intervals = Returned logs ->
  positively_oriented F more_shapes ->
  compute_logs F more_shapes = Returned more_logs ->
  Forall (fun equation =>
            List.length equation <= 3 * List.length shape_intervals)
         (gluing_equations manifold) ->
  verify F manifold (shape_intervals ++ more_shapes) verbose =
  verify F manifold shape_intervals verbose.
Proof.
  intros Hpos Hne Hlogs Hpos' Hlogs' Hrows.
  rewrite (verify_run_checks F manifold _ logs verbose Hpos Hne Hlogs).
  rewrite (verify_run_checks F manifold _ (logs ++ more_logs) verbose).
  - f_equal. apply map_ext_in. intros equation Hin.
    apply LHS_of_more_logs.
    rewrite (interleaved_logs_length F shape_intervals logs)
      by (apply compute_logs_interleaved; exact Hlogs).
    rewrite Forall_forall in Hrows. apply Hrows. exact Hin.
  - apply Forall_app. split; assumption.
  - destruct shape_intervals; [ contradiction | discriminate ].
  - apply compute_logs_app; assumption.
Qed.

(** A second shape that no equation of the one-tetrahedron input reads. *)
Lemma shapes_beyond_the_coefficients_do_not_matter_witness :
  verify Examples.CIF53 Examples.synthetic
         [Examples.shape_i; Examples.regular_shape] true =
  verify Examples.CIF53 Examples.synthetic [Examples.shape_i] true.
Proof.
  apply (shapes_beyond_the_coefficients_do_not_matter
           Examples.CIF53 Examples.synthetic
           [Examples.shape_i] [Examples.regular_shape] true
           Examples.shape_i_logs Examples.regular_logs).
  - exact shape_i_oriented.
  - discriminate.
  - exact shape_i_logs_computed.
  - repeat constructor.
  - exact regular_logs_computed.
  - repeat constructor.
Defined.

(** X9. A manifold that reports no tetrahedron and no cusp is certified
    on every non-empty, positively oriented shape list whose logarithms
    are computed, whatever its equation list holds: there is no check to
    fail, and nothing is printed. *)
Theorem nothing_to_check_is_certified
        (F : IntervalField) (manifold : Manifold)
        (shape_intervals : list (CI F)) (verbose : bool) (logs : list (CI F)) :
  num_tetrahedra manifold = 0 ->
  num_cusps manifold = 0 ->
  positively_oriented F shape_intervals ->
  shape_intervals <> [] ->
  compute_logs F shape_intervals = Returned logs ->
  verify F manifold shape_intervals verbose = ([], Returned true).
Proof.
  intros Htet Hcusps Hpos Hne Hlogs.
  rewrite (verify_run_checks F manifold _ logs verbose Hpos Hne Hlogs).
  unfold labelled_targets. rewrite Htet, Hcusps. reflexivity.
Qed.

(** No tetrahedron, no cusp, one unread equation. *)
Lemma nothing_to_check_is_certified_witness :
  verify Examples.CIF53 Examples.nothing_to_check [Examples.shape_i] true
  = ([], Returned true).
Proof.
  apply (nothing_to_check_is_certified
           Examples.CIF53 Examples.nothing_to_check [Examples.shape_i] true
           Examples.shape_i_logs).
  - reflexivity.
  - reflexivity.
  - exact shape_i_oriented.
  - discriminate.
  - exact shape_i_logs_computed.
Defined.

(** X10. The verifier returns [True] exactly when the shape list is
    non-empty and positively oriented, all logarithms are computed, and
    each of the expected equations (one per tetrahedron, two per complete
    cusp, one per filled cusp) is there and within tolerance of its
    target. *)
Theorem verifier_returns_true_iff
        (F : IntervalField) (manifold : Manifold)
        (shape_intervals : list (CI F)) (verbose : bool) :
  outcome (verify F manifold shape_intervals verbose) = Returned true <->
  positively_oriented F shape_intervals /\
  shape_intervals <> [] /\
  exists logs,
    compute_logs F shape_intervals = Returned logs /\
    forall i, i < expected_equation_count manifold ->
              check_passes F (expected_targets F manifold)
                           (map (LHS_of F logs) (gluing_equations manifold)) i.
Proof. rewrite verify_outcome. apply verify_spec_true. Qed.

(** What the certificate of the figure-eight knot complement says. *)
Lemma verifier_returns_true_iff_witness :
  positively_oriented Examples.CIF53 Examples.m004_shapes /\
  Examples.m004_shapes <> [] /\
  exists logs,
    compute_logs Examples.CIF53 Examples.m004_shapes = Returned logs /\
    forall i, i < expected_equation_count Examples.m004 ->
              check_passes Examples.CIF53
                (expected_targets Examples.CIF53 Examples.m004)
                (map (LHS_of Examples.CIF53 logs)
                     (gluing_equations Examples.m004)) i.
Proof.
  apply (proj1 (verifier_returns_true_iff Examples.CIF53 Examples.m004
                  Examples.m004_shapes false)).
  exact (f_equal snd m004_run).
Defined.

(** X11. The verifier returns [False] exactly when some shape interval
    does not have a strictly positive imaginary part, or when, past the
    orientation check, the logarithms and the base-field lookup, some
    check is out of tolerance and every check before it passes. *)
Theorem verifier_returns_false_iff
        (F : IntervalField) (manifold : Manifold)
        (shape_intervals : list (CI F)) (verbose : bool) :
  outcome (verify F manifold shape_intervals verbose) = Returned false <->
  Exists (fun z => positive_imag F z = false) shape_intervals \/
  (positively_oriented F shape_intervals /\
   shape_intervals <> [] /\
   exists logs,
     compute_logs F shape_intervals = Returned logs /\
     exists i,
       check_fails F (expected_targets F manifold)
                   (map (LHS_of F logs) (gluing_equations manifold)) i /\
       forall j, j < i ->
                 check_passes F (expected_targets F manifold)
                              (map (LHS_of F logs) (gluing_equations manifold))
                              j).
Proof.
  rewrite verify_outcome. unfold verify_spec.
  rewrite positively_oriented_forallb, not_oriented_forallb.
  destruct (forallb (positive_imag F) shape_intervals); cbn [negb].
  - destruct (compute_logs F shape_intervals) as [ logs | e ].
    + destruct shape_intervals as [ | z0 shapes ].
      * split; [ discriminate | ].
        intros [ H | (_ & H & _) ]; [ discriminate | contradiction ].
      * rewrite check_all_false. split.
        -- intros H. right. repeat split; [ discriminate | ].
           exists logs. split; [ reflexivity | exact H ].
        -- intros [ H | (_ & _ & logs' & Hl & H) ]; [ discriminate | ].
           injection Hl as <-. exact H.
    + split; [ discriminate | ].
      intros [ H | (_ & _ & logs & Hl & _) ]; discriminate.
  - split; [ intros _; left; reflexivity | reflexivity ].
Qed.

(** The edge sum [2 pi i + 3] is the first check, and it fails. *)
Lemma verifier_returns_false_iff_witness :
  outcome (verify Examples.CIF53 Examples.off_by_three [Examples.shape_far]
                  false) = Returned false.
Proof.
  apply (proj2 (verifier_returns_false_iff Examples.CIF53 Examples.off_by_three
                  [Examples.shape_far] false)).
  right. repeat split.
  - repeat constructor.
  - discriminate.
  - exists Examples.shape_far_logs.
    split; [ exact shape_far_logs_computed | ].
    exists 0. split; [ vm_compute; reflexivity | ].
    intros j Hj. exfalso. inversion Hj.
Defined.

(** X12. [verify_hyperbolicity] returns [(True, shapes)] exactly when the
    solver returned [shapes] and they pass the verifier: they are
    non-empty and positively oriented, their logarithms are computed, and
    every expected equation is there and within tolerance of its
    target. *)
Theorem certificate_means_every_check_passed
        (ComplexIntervalField : nat -> IntervalField)
        (tetrahedra_shapes :
           forall bits_prec : nat,
             Manifold -> result (list (CI (ComplexIntervalField bits_prec))))
        (manifold : Manifold) (verbose : bool) (bits_prec : nat)
        (shapes : list (CI (ComplexIntervalField bits_prec))) :
  let F := ComplexIntervalField bits_prec in
  outcome (verify_hyperbolicity ComplexIntervalField tetrahedra_shapes
                                manifold verbose bits_prec)
  = Returned (true, shapes) <->
  tetrahedra_shapes bits_prec manifold = Returned shapes /\
  positively_oriented F shapes /\
  shapes <> [] /\
  exists logs,
    compute_logs F shapes = Returned logs /\
    forall i, i < expected_equation_count manifold ->
              check_passes F (expected_targets F manifold)
                           (map (LHS_of F logs) (gluing_equations manifold)) i.
Proof.
  cbv zeta. rewrite verify_hyperbolicity_outcome.
  rewrite <- (verify_spec_true (ComplexIntervalField bits_prec) manifold
                               shapes).
  destruct (tetrahedra_shapes bits_prec manifold) as [ s | e ].
  - split.
    + intros H.
      destruct (verify_spec (ComplexIntervalField bits_prec) manifold s)
        as [ [ | ] | ] eqn:Hv; inversion H; subst.
      split; [ reflexivity | exact Hv ].
    + intros [Hs Hv]. injection Hs as ->. rewrite Hv. reflexivity.
  - split; [ discriminate | intros [H _]; discriminate ].
Qed.

(** The certificate of the figure-eight knot complement. *)
Lemma certificate_means_every_check_passed_witness :
  Examples.solver Examples.bits Examples.m004 = Returned Examples.m004_shapes /\
  positively_oriented (Reference.field Examples.bits) Examples.m004_shapes /\
  Examples.m004_shapes <> [] /\
  exists logs,
    compute_logs (Reference.field Examples.bits) Examples.m004_shapes
    = Returned logs /\
    forall i, i < expected_equation_count Examples.m004 ->
              check_passes (Reference.field Examples.bits)
                (expected_targets (Reference.field Examples.bits) Examples.m004)
                (map (LHS_of (Reference.field Examples.bits) logs)
                     (gluing_equations Examples.m004)) i.
Proof.
  apply (proj1 (certificate_means_every_check_passed
                  Reference.field Examples.solver Examples.m004 false
                  Examples.bits Examples.m004_shapes)).
  rewrite verify_hyperbolicity_outcome.
  change (Examples.solver Examples.bits Examples.m004)
    with (Returned Examples.m004_shapes).
  cbv beta iota.
  change (verify_spec (Reference.field Examples.bits) Examples.m004
                      Examples.m004_shapes)
    with (verify_spec Examples.CIF53 Examples.m004 Examples.m004_shapes).
  rewrite m004_spec. reflexivity.
Defined.
